(** * ArithmeticTree: the back-and-forth controller [mult.py]

    A shallow embedding of the controller that alternates the PPO
    multiplier search and the MCTS adder search: the log selectors
    [get_best_file_from_ppo] and [get_best_file_from_mcts], the template
    extractors [save_mult_file] and [save_adder_file], and the loop of
    [main].

    Conventions of the embedding.
    - A Python [str] is a [string]; a Python [float] is a binary64
      [float] of the kernel, with its IEEE comparison and arithmetic.
    - A text file is the list of the lines that iterating over the open
      file yields, each with its line terminator; a file written by the
      controller is the list of the strings handed to [write].  The file
      system is a finite map from paths to files.
    - A Python exception is a value of [exn]; code that may raise returns
      a [result].
    - [print] and the mirroring of a job's output to the console are not
      part of the state. *)

From Stdlib Require Import ZArith Lia List Ascii String DecimalString Floats Bool.
From Stdlib Require Import DecimalPos DecimalZ.
From stdpp Require Import base option list strings gmap.

Local Open Scope string_scope.
Local Open Scope Z_scope.

(** ** Exceptions and results *)

Inductive exn : Type :=
| AssertionError (msg : string)
| IndexError
| ValueError
| TypeError
| UnboundLocalError
| FileNotFoundError (path : string).

Inductive result (A : Type) : Type :=
| Ok (a : A)
| Raise (e : exn).
Arguments Ok {A} a.
Arguments Raise {A} e.

Definition rbind {A B : Type} (m : result A) (k : A -> result B) : result B :=
  match m with
  | Ok a => k a
  | Raise e => Raise e
  end.

#[global] Instance result_bind : MBind result := fun A B k m => rbind m k.
#[global] Instance result_ret : MRet result := fun A a => Ok a.

(** ** Strings as Python uses them here *)

Definition TAB : string := String (ascii_of_nat 9) "".
Definition NL : string := String (ascii_of_nat 10) "".

(** [str.isspace] on the ASCII range: tab, line feed, vertical tab, form
    feed, carriage return, the four separators 28..31 and the space. *)
Definition is_space (c : ascii) : bool :=
  let n := nat_of_ascii c in
  ((9 <=? n)%nat && (n <=? 13)%nat) || ((28 <=? n)%nat && (n <=? 32)%nat).

Definition is_empty (s : string) : bool :=
  match s with
  | EmptyString => true
  | String _ _ => false
  end.

Fixpoint lstrip (s : string) : string :=
  match s with
  | EmptyString => EmptyString
  | String c r => if is_space c then lstrip r else s
  end.

Fixpoint rstrip (s : string) : string :=
  match s with
  | EmptyString => EmptyString
  | String c r =>
      let r' := rstrip r in
      if is_space c && is_empty r' then EmptyString else String c r'
  end.

(** [s.strip()] *)
Definition strip (s : string) : string := rstrip (lstrip s).

(** [s.split(sep)] for a one-character separator: every occurrence
    separates, and the result is never empty. *)
Fixpoint split (sep : ascii) (s : string) : list string :=
  match s with
  | EmptyString => [EmptyString]
  | String c r =>
      if Ascii.eqb c sep then EmptyString :: split sep r
      else match split sep r with
           | h :: t => String c h :: t
           | [] => [String c EmptyString]
           end
  end.

(** [line.startswith(p)] *)
Definition startswith (p line : string) : bool := String.prefix p line.

(** [c in line] for a one-character string [c]. *)
Fixpoint char_in (c : ascii) (line : string) : bool :=
  match line with
  | EmptyString => false
  | String d r => Ascii.eqb d c || char_in c r
  end.

(** [parts[k]] on a list: [IndexError] out of range. *)
Definition index {A : Type} (parts : list A) (k : nat) : result A :=
  match nth_error parts k with
  | Some x => Ok x
  | None => Raise IndexError
  end.

(** [os.path.join] of [posixpath]: an absolute component discards what
    precedes it; otherwise components are joined by one slash. *)
Definition ends_with_slash (s : string) : bool :=
  match get (String.length s - 1) s with
  | Some c => Ascii.eqb c "/"
  | None => false
  end.

Definition join2 (a b : string) : string :=
  if startswith "/" b then b
  else if is_empty a || ends_with_slash a then a ++ b
  else a ++ "/" ++ b.

Definition path_join (a : string) (ps : list string) : string :=
  fold_left join2 ps a.

(** [str(n)] for an [int]. *)
Definition str_int (n : Z) : string :=
  NilZero.string_of_int (Z.to_int n).

(** ** Global configuration *)

Definition BASE_DIR : string := "/content/ArithmeticTree".
Definition MULT_LOGS_DIR : string := path_join BASE_DIR ["mult_logs"].
Definition MCTS_LOGS_DIR : string := path_join BASE_DIR ["mcts_mult_adder"].
Definition BACK_AND_FORTH_DIR : string := path_join BASE_DIR ["back_and_forth"].

Definition ADDER_MARKER : string := "module adder(a,b,s);".

(** A file is the list of its lines; the file system maps paths to files. *)
Abbreviation file := (list string).
Abbreviation filesystem := (gmap string file).

(** ** A reader of decimal literals

    The selectors call Python's [float] on the fields of a record.  The
    development takes that function as a parameter [py_float] (with
    [None] for [ValueError]), so every general statement holds whatever
    [float] accepts.  [float_of_decimal] is the instance used to evaluate
    the code on concrete logs.  It reads an optional sign, digits and an
    optional fraction, after trimming; on these literals it returns what
    [float] returns: a literal without fraction is rounded to the nearest
    binary64, and a literal with at most 22 fraction digits whose digits
    make an integer below 2^53 is the correctly rounded quotient of two
    exact floats.  Any other string yields [None] here, although [float]
    also accepts a fraction without integer part, longer fractions,
    exponents, underscores, [inf] and [nan]; no statement below rests on
    a [None] of this reader except where [float] raises too. *)

Definition digit_of (c : ascii) : option Z :=
  let n := Z.of_nat (nat_of_ascii c) in
  if (48 <=? n) && (n <=? 57) then Some (n - 48) else None.

Fixpoint read_digits (s : string) (acc : Z) (count : nat) : Z * nat * string :=
  match s with
  | EmptyString => (acc, count, s)
  | String c r =>
      match digit_of c with
      | Some d => read_digits r (10 * acc + d) (S count)
      | None => (acc, count, s)
      end
  end.

Definition float_of_Z (m : Z) : float :=
  SF2Prim (binary_normalize prec emax m 0 false).

Definition unsigned_decimal (s : string) : option float :=
  let '(n, cn, r) := read_digits s 0 0%nat in
  match cn, r with
  | O, _ => None
  | _, EmptyString => Some (float_of_Z n)
  | _, String c r' =>
      if Ascii.eqb c "." then
        let '(m, cm, r'') := read_digits r' n 0%nat in
        if is_empty r'' then
          if (cm =? 0)%nat then Some (float_of_Z n)
          else if (m <? 2 ^ 53) && (cm <=? 22)%nat
               then Some (float_of_Z m / float_of_Z (10 ^ Z.of_nat cm))%float
               else None
        else None
      else None
  end.

Definition float_of_decimal (s : string) : option float :=
  match strip s with
  | String "-" r => option_map PrimFloat.opp (unsigned_decimal r)
  | String "+" r => unsigned_decimal r
  | t => unsigned_decimal t
  end.

(** ** The controller *)

(** What the loop of [main] leaves behind. *)
Inductive status : Type :=
| Finished
| Crashed (e : exn).

(** The external search jobs, as [capture_subprocess_output] sees them:
    the command line decides, with the file system the job finds, whether
    the job succeeds, what it prints and what it leaves on disk. *)
Definition job : Type := list string -> filesystem -> bool * string * filesystem.

(** The running minimum of a selector. *)
Record best : Type := Best {
  best_score : float;
  best_verilog_file : option string;
  best_data_line : option string
}.

(** The local state of [main]. *)
Record state : Type := State {
  fs : filesystem;
  flog : list string;
  cmds : list (list string);
  i : Z;
  template_adder_name : option string
}.

(** How a pass through the body of the loop ends: at its end, at a
    [break], or with an exception that [main] does not catch. *)
Inductive step : Type :=
| Next (st : state)
| Break (st : state)
| Uncaught (e : exn) (st : state).

(** ** Sample data: logs, designs and jobs of a concrete run *)

Definition line (fields : list string) : string :=
  String.concat TAB fields ++ NL.

(** The value following [flag] on a command line. *)
Fixpoint arg (flag : string) (cmd : list string) : string :=
  match cmd with
  | f :: rest =>
      if String.eqb f flag then List.hd "" rest else arg flag rest
  | [] => ""
  end.

Definition sample_mult_verilog : file :=
  ["// multiplier 4 bit" ++ NL;
   "module mult(a,b,p);" ++ NL;
   "endmodule" ++ NL;
   "module adder(a,b,s); // ripple" ++ NL;
   "endmodule" ++ NL].

Definition sample_adder_verilog : file :=
  ["// width 2" ++ NL;
   "// first" ++ NL;
   "wire early;" ++ NL;
   "// second" ++ NL;
   "// third" ++ NL;
   "module adder(a,b,s);" ++ NL;
   "// fourth" ++ NL;
   "assign s = a + b;" ++ NL;
   "endmodule" ++ NL].

Definition sample_ppo_log : file :=
  [line ["m0.v"; "3.5"; "100"; "2"; "50"];
   line ["m1.v"; "2.5"; "100"; "1.5"; "50"];
   line ["m2.v"; "1.5"; "100"; "2.5"; "50"]].

Definition sample_mcts_log : file :=
  [line ["a0.v"; "1.25"; "200"; "1"; "0"]].

(** A pair of search jobs that always succeed and leave one result log
    and the winning designs on disk. *)
Definition sample_job : job := fun cmd fsys =>
  let key := arg "--strftime" cmd in
  let bits := arg "--input_bit" cmd in
  if String.eqb (List.nth 1 cmd "") (path_join BASE_DIR ["PPO2_mult.py"]) then
    (true, "ppo finished" ++ NL,
     <[path_join MULT_LOGS_DIR ["mult_" ++ bits ++ "b_" ++ key ++ ".log"] := sample_ppo_log]>
       (<[path_join BASE_DIR ["run_verilog_mult_mid"; "m1.v"] := sample_mult_verilog]> fsys))
  else
    (true, "mcts finished" ++ NL,
     <[path_join MCTS_LOGS_DIR
         ["mcts_mult_adder_" ++ bits ++ "b_openroad_" ++ key ++ ".log"] := sample_mcts_log]>
       (<[path_join BASE_DIR ["run_verilog_mult_add_mid"; "a0.v"] := sample_adder_verilog]> fsys)).

(** The default weight, the binary64 nearest to 0.01. *)
Definition sample_w : float := 0x1.47ae147ae147bp-7%float.

(** A stage-1 job that succeeds and leaves the given result log. *)
Definition logging_job (log : file) : job := fun cmd fsys =>
  (true, "ppo finished" ++ NL,
   <[path_join MULT_LOGS_DIR
       ["mult_" ++ arg "--input_bit" cmd ++ "b_" ++ arg "--strftime" cmd ++ ".log"]
     := log]> fsys).

(** A job that exits with status 1. *)
Definition failing_job : job := fun cmd fsys =>
  (false, "Traceback (most recent call last):" ++ NL, fsys).

(** A log whose only record has a first metric of 310 digits, beyond the
    range of binary64. *)
Definition huge : string := "1" ++ String.concat "" (repeat "0" 309%nat).

Definition overflow_log : file := [line ["m0.v"; huge; "0"; "0"; "0"]].

(** A log whose second record lacks two fields. *)
Definition short_log : file :=
  [line ["m0.v"; "3.5"; "100"; "2"; "50"]; line ["m1.v"; "2.5"; "100"]].

(** Stage 1 as in [sample_job]; stage 2 exits with status 1. *)
Definition stage2_failing_job : job := fun cmd fsys =>
  if String.eqb (List.nth 1 cmd "") (path_join BASE_DIR ["PPO2_mult.py"])
  then sample_job cmd fsys
  else (false, "Traceback (most recent call last):" ++ NL, fsys).

(** Stage 1 as in [sample_job]; stage 2 exits with status 0 and leaves
    no result log. *)
Definition stage2_silent_job : job := fun cmd fsys =>
  if String.eqb (List.nth 1 cmd "") (path_join BASE_DIR ["PPO2_mult.py"])
  then sample_job cmd fsys
  else (true, "mcts finished" ++ NL, fsys).

Definition sample_timestamp : string := "2024-01-01-00-00-00".

(** The jobs of [sample_job] in round 0; in later rounds a job that exits
    with status 0 and leaves nothing on disk. *)
Definition round0_only_job : job := fun cmd fsys =>
  if String.eqb (arg "--strftime" cmd) (sample_timestamp ++ "-0")
  then sample_job cmd fsys
  else (true, "", fsys).

Definition sample_elapsed (k : Z) : string := str_int (10 * k) ++ ".00".

Section Controller.

(** [float] on a string; [None] stands for [ValueError]. *)
Variable py_float : string -> option float.
(** [args.area_w] and its rendering by the format [:.2f]. *)
Variable area_w : float.
Variable area_w_2f : string.
(** [args.input_bit] *)
Variable input_bit : Z.
(** [time.strftime] at the start of the run, and the elapsed times as
    the format [:.2f] renders them. *)
Variable timestamp : string.
Variable iter_elapsed : Z -> string.
Variable total_elapsed : string.
(** The child process behind [capture_subprocess_output]. *)
Variable capture_subprocess_output : job.

Definition to_float (s : string) : result float :=
  match py_float s with
  | Some x => Ok x
  | None => Raise ValueError
  end.

Definition init_best : best := Best infinity None None.

(** The loop of [get_best_file_from_ppo]. *)
Fixpoint ppo_lines (lines : list string) (b : best) : result best :=
  match lines with
  | [] => Ok b
  | line :: rest =>
      let raw_line := strip line in
      let parts := split (ascii_of_nat 9) raw_line in
      p1 ← index parts 1; m1 ← to_float p1;
      p2 ← index parts 2; m2 ← to_float p2;
      p3 ← index parts 3; m3 ← to_float p3;
      p4 ← index parts 4; m4 ← to_float p4;
      let score := (m1 + m2 * area_w + m3 + m4 * area_w)%float in
      if (score <? best_score b)%float then
        p0 ← index parts 0;
        ppo_lines rest (Best score (Some p0) (Some raw_line))
      else ppo_lines rest b
  end.

Definition ppo_log_path (strftime_str : string) (bits : Z) : string :=
  path_join MULT_LOGS_DIR ["mult_" ++ str_int bits ++ "b_" ++ strftime_str ++ ".log"].

Definition get_best_file_from_ppo (fsys : filesystem) (strftime_str : string)
    (bits : Z) : result (option string * option string) :=
  let log_path := ppo_log_path strftime_str bits in
  match fsys !! log_path with
  | None => Raise (AssertionError ("[ERROR] " ++ log_path ++ " does not exist."))
  | Some lines =>
      b ← ppo_lines lines init_best;
      Ok (best_verilog_file b, best_data_line b)
  end.

(** The loop of [get_best_file_from_mcts]. *)
Fixpoint mcts_lines (lines : list string) (b : best) : result best :=
  match lines with
  | [] => Ok b
  | line :: rest =>
      let raw_line := strip line in
      let parts := split (ascii_of_nat 9) raw_line in
      p1 ← index parts 1; m1 ← to_float p1;
      p2 ← index parts 2; m2 ← to_float p2;
      p3 ← index parts 3; m3 ← to_float p3;
      p4 ← index parts 4; m4 ← to_float p4;
      let score := (m1 + m2 * area_w + m3 + m4 * area_w)%float in
      if (score <? best_score b)%float then
        p0 ← index parts 0;
        mcts_lines rest (Best score (Some p0) (Some raw_line))
      else mcts_lines rest b
  end.

Definition mcts_log_path (strftime_str : string) (bits : Z) : string :=
  path_join MCTS_LOGS_DIR
    ["mcts_mult_adder_" ++ str_int bits ++ "b_openroad_" ++ strftime_str ++ ".log"].

Definition get_best_file_from_mcts (fsys : filesystem) (strftime_str : string)
    (bits : Z) : result (option string * option string) :=
  let log_path := mcts_log_path strftime_str bits in
  match fsys !! log_path with
  | None => Raise (AssertionError ("[ERROR] " ++ log_path ++ " does not exist."))
  | Some lines =>
      b ← mcts_lines lines init_best;
      Ok (best_verilog_file b, best_data_line b)
  end.

(** [os.path.join(BASE_DIR, dir, name)] where [name] may be [None]. *)
Definition join_name (dir : string) (name : option string) : result string :=
  match name with
  | Some n => Ok (path_join BASE_DIR [dir; n])
  | None => Raise TypeError
  end.

(** The loop of [save_mult_file]: what is written to the template. *)
Fixpoint mult_lines (lines : list string) : list string :=
  match lines with
  | [] => []
  | line :: rest =>
      if negb (startswith ADDER_MARKER line) then line :: mult_lines rest
      else []
  end.

Definition mult_template_name (strftime_str : string) : string :=
  "mult_template_" ++ strftime_str ++ ".v".

(** Opening the destination for writing truncates it before the first
    line of the source is read. *)
Definition save_mult_file (fsys : filesystem) (verilog_file_name : option string)
    (strftime_str : string) : result (filesystem * string) :=
  source_path ← join_name "run_verilog_mult_mid" verilog_file_name;
  let dest_dir := path_join BASE_DIR ["multiplier_template"] in
  let template_mult_name := mult_template_name strftime_str in
  let dest_path := path_join dest_dir [template_mult_name] in
  match fsys !! source_path with
  | None => Raise (FileNotFoundError source_path)
  | Some _ =>
      let opened : filesystem := <[dest_path := []]> fsys in
      let lines := default [] (opened !! source_path) in
      Ok (<[dest_path := mult_lines lines]> opened, template_mult_name)
  end.

(** The loop of [save_adder_file], with its two local variables. *)
Fixpoint adder_lines (bits : Z) (lines : list string) (cnt : Z)
    (find_adder : bool) : list string :=
  match lines with
  | [] => []
  | line :: rest =>
      if negb (startswith "//" line) then
        let find_adder' :=
          if startswith ADDER_MARKER line then true else find_adder in
        if find_adder' then line :: adder_lines bits rest cnt find_adder'
        else adder_lines bits rest cnt find_adder'
      else if char_in "2" line then adder_lines bits rest cnt find_adder
      else if cnt <? bits then line :: adder_lines bits rest (cnt + 1) find_adder
      else adder_lines bits rest cnt find_adder
  end.

Definition adder_template_name (strftime_str : string) : string :=
  "adder_template_" ++ strftime_str ++ ".v".

Definition save_adder_file (fsys : filesystem) (verilog_file_name : option string)
    (strftime_str : string) (bits : Z) : result (filesystem * string) :=
  source_path ← join_name "run_verilog_mult_add_mid" verilog_file_name;
  let dest_dir := path_join BASE_DIR ["adder_template"] in
  let template_adder_name := adder_template_name strftime_str in
  let dest_path := path_join dest_dir [template_adder_name] in
  match fsys !! source_path with
  | None => Raise (FileNotFoundError source_path)
  | Some _ =>
      let opened : filesystem := <[dest_path := []]> fsys in
      let lines := default [] (opened !! source_path) in
      Ok (<[dest_path := adder_lines bits lines 0 false]> opened,
          template_adder_name)
  end.

(** *** [main] *)

Definition each_iter_ppo : Z := 900.
Definition each_iter_mcts : Z := 100.
Definition total_times : nat := 3.

(** An f-string field holding a [str] or [None]. *)
Definition fmt (o : option string) : string := default "None" o.

Definition round_key (k : Z) : string := timestamp ++ "-" ++ str_int k.

(** The command line of stage 1; after round 0 it names the adder
    template, a local variable that an earlier pass must have bound. *)
Definition ppo_cmd (k : Z) (template : option string) : result (list string) :=
  let cmd :=
    ["python3"; path_join BASE_DIR ["PPO2_mult.py"];
     "--input_bit"; str_int input_bit;
     "--max_iter"; str_int each_iter_ppo;
     "--strftime"; round_key k] in
  if 0 <? k then
    match template with
    | Some name => Ok (cmd ++ ["--template"; name])%list
    | None => Raise UnboundLocalError
    end
  else Ok cmd.

Definition mcts_cmd (k : Z) (template_mult_name : string) : list string :=
  ["python3"; path_join BASE_DIR ["MCTS_mult.py"];
   "--input_bit"; str_int (input_bit * 2);
   "--max_iter"; str_int each_iter_mcts;
   "--template"; template_mult_name;
   "--strftime"; round_key k;
   "--area_w"; area_w_2f]
  ++ (if 0 <? k then ["--init_state"] else []).

Definition write (st : state) (text : string) : state :=
  State (fs st) (flog st ++ [text]) (cmds st) (i st) (template_adder_name st).

Definition run (st : state) (cmd : list string) : bool * string * state :=
  let '(success, output, fsys) := capture_subprocess_output cmd (fs st) in
  (success, output,
   State fsys (flog st) (cmds st ++ [cmd]) (i st) (template_adder_name st)).

Definition set_fs (st : state) (fsys : filesystem) : state :=
  State fsys (flog st) (cmds st) (i st) (template_adder_name st).

(** One pass through the body of the [for] loop; [i st] is the value the
    loop has just bound. *)
Definition body (st : state) : step :=
  let st := write st ("Iteration " ++ str_int (i st) ++ ", Time elapsed: "
                      ++ iter_elapsed (i st) ++ " seconds" ++ NL) in
  match ppo_cmd (i st) (template_adder_name st) with
  | Raise e => Uncaught e st
  | Ok cmd =>
  let '(success, ppo_output, st) := run st cmd in
  if negb success then
    Break (write st ("[ERROR] PPO2_mult.py failed during iteration "
                     ++ str_int (i st) ++ "." ++ NL ++ "Output:" ++ NL
                     ++ ppo_output ++ NL))
  else
  match get_best_file_from_ppo (fs st) (round_key (i st)) input_bit with
  | Raise (AssertionError e) => Break (write st (e ++ NL))
  | Raise e => Uncaught e st
  | Ok (verilog_file_name, data_line) =>
  let st := write st ("PPO:" ++ TAB ++ fmt data_line ++ NL) in
  match save_mult_file (fs st) verilog_file_name (round_key (i st)) with
  | Raise e => Uncaught e st
  | Ok (fsys, template_mult_name) =>
  let st := set_fs st fsys in
  let '(success, mcts_output, st) := run st (mcts_cmd (i st) template_mult_name) in
  if negb success then
    Break (write st ("[ERROR] MCTS_mult.py failed during iteration "
                     ++ str_int (i st) ++ "." ++ NL ++ "Output:" ++ NL
                     ++ mcts_output ++ NL))
  else
  match get_best_file_from_mcts (fs st) (round_key (i st)) (input_bit * 2) with
  | Raise (AssertionError e) => Break (write st (e ++ NL))
  | Raise e => Uncaught e st
  | Ok (verilog_file_name, data_line) =>
  let st := write st ("MCTS" ++ TAB ++ fmt data_line ++ NL) in
  match save_adder_file (fs st) verilog_file_name (round_key (i st)) (input_bit * 2) with
  | Raise e => Uncaught e st
  | Ok (fsys, name) =>
  Next (State fsys (flog st) (cmds st) (i st + 1) (Some name))
  end end end end end.

(** [for i in range(...)]: every pass binds [i] to the next element of
    the range, whatever the body left in it. *)
Definition rebind (k : Z) (st : state) : state :=
  State (fs st) (flog st) (cmds st) k (template_adder_name st).

Fixpoint for_range (range : list Z) (st : state) : state * status :=
  match range with
  | [] => (st, Finished)
  | k :: rest =>
      match body (rebind k st) with
      | Next st' => for_range rest st'
      | Break st' => (st', Finished)
      | Uncaught e st' => (st', Crashed e)
      end
  end.

Definition range (n : nat) : list Z := map Z.of_nat (seq 0 n).

(** [main] from a file system; the run log is the list of the writes to
    [flog].  After an uncaught exception nothing more is written. *)
Definition main (fsys : filesystem) : state * status :=
  match for_range (range total_times) (State fsys [] [] 0 None) with
  | (st, Finished) =>
      (write st ("Total Time Elapsed: " ++ total_elapsed ++ " seconds" ++ NL), Finished)
  | (st, Crashed e) => (st, Crashed e)
  end.

(** The lines of the run log. *)
Definition iteration_line (k : Z) : string :=
  "Iteration " ++ str_int k ++ ", Time elapsed: " ++ iter_elapsed k ++ " seconds" ++ NL.

Definition total_line : string :=
  "Total Time Elapsed: " ++ total_elapsed ++ " seconds" ++ NL.

Definition ppo_error_line (k : Z) (output : string) : string :=
  "[ERROR] PPO2_mult.py failed during iteration " ++ str_int k ++ "." ++ NL
  ++ "Output:" ++ NL ++ output ++ NL.

(** The message of the assertion on a missing log. *)
Definition missing_log (log_path : string) : string :=
  "[ERROR] " ++ log_path ++ " does not exist.".

(** The entries that record a winner, as [main] writes them. *)
Definition ppo_line (raw : string) : string := "PPO:" ++ TAB ++ raw ++ NL.
Definition mcts_line (raw : string) : string := "MCTS" ++ TAB ++ raw ++ NL.

(** A run without failure over a range: every pass reaches the end of
    the body; the result is the state after the last pass. *)
Fixpoint completes (ks : list Z) (st : state) : option state :=
  match ks with
  | [] => Some st
  | k :: ks' =>
      match body (rebind k st) with
      | Next st1 => completes ks' st1
      | Break _ | Uncaught _ _ => None
      end
  end.

(** The state a pass through the body ends in, however it ends. *)
Definition state_of (s : step) : state :=
  match s with
  | Next st | Break st | Uncaught _ st => st
  end.

Definition mcts_error_line (k : Z) (output : string) : string :=
  "[ERROR] MCTS_mult.py failed during iteration " ++ str_int k ++ "." ++ NL
  ++ "Output:" ++ NL ++ output ++ NL.

(** *** The words of the specification

    The records of a result log and their score, the selection the adder
    extractor makes, and a run without failure, written after the
    specification and compared with the code below. *)

Definition fields (line : string) : list string :=
  split (ascii_of_nat 9) (strip line).

Definition metric (line : string) (k : nat) : option float :=
  nth_error (fields line) k ≫= py_float.

(** At least five fields, of which fields 2 to 5 are numbers. *)
Definition well_formed (line : string) : bool :=
  (5 <=? length (fields line))%nat
  && forallb (fun k => bool_decide (is_Some (metric line k))) [1; 2; 3; 4]%nat.

(** [score = m1 + m2*weight + m3 + m4*weight] *)
Definition record_score (line : string) : option float :=
  m1 ← metric line 1; m2 ← metric line 2;
  m3 ← metric line 3; m4 ← metric line 4;
  Some (m1 + m2 * area_w + m3 + m4 * area_w)%float.

Definition record_id (line : string) : option string := head (fields line).

(** The running best [b] after the lines [pre]: no record of [pre]
    undercuts it, and it is either the initial best or the record at some
    position [k] of [pre], which no earlier record equals or undercuts. *)
Definition running_best (pre : list string) (b : best) : Prop :=
  (forall (j : nat) (line' : string) (s' : float),
      pre !! j = Some line' -> record_score line' = Some s' ->
      (s' <? best_score b)%float = false)
  /\ (b = init_best
      \/ exists (k : nat) (line id : string),
          pre !! k = Some line /\ record_id line = Some id
          /\ record_score line = Some (best_score b)
          /\ (best_score b <? infinity)%float = true
          /\ best_verilog_file b = Some id
          /\ best_data_line b = Some (strip line)
          /\ forall (j : nat) (line' : string) (s' : float),
               (j < k)%nat -> pre !! j = Some line' ->
               record_score line' = Some s' ->
               (s' <=? best_score b)%float = false).

(** What a selector may return on the lines of a log: the identifier and
    the trimmed line of a record whose score lies below infinity, which
    no record undercuts and no earlier record equals or undercuts; or
    nothing, when no score lies below infinity. *)
Definition selects (lines : list string)
    (r : result (option string * option string)) : Prop :=
  (exists (k : nat) (line id : string) (s : float),
      lines !! k = Some line /\ record_id line = Some id
      /\ record_score line = Some s /\ (s <? infinity)%float = true
      /\ r = Ok (Some id, Some (strip line))
      /\ forall (j : nat) (line' : string) (s' : float),
           lines !! j = Some line' -> record_score line' = Some s' ->
           (s' <? s)%float = false
           /\ ((j < k)%nat -> (s' <=? s)%float = false))
  \/ (r = Ok (None, None)
      /\ forall (line' : string) (s' : float),
           In line' lines -> record_score line' = Some s' ->
           (s' <? infinity)%float = false).

(** The paths of the extractors. *)
Definition mult_source_path (name : string) : string :=
  path_join BASE_DIR ["run_verilog_mult_mid"; name].
Definition mult_dest_path (key : string) : string :=
  path_join (path_join BASE_DIR ["multiplier_template"]) [mult_template_name key].
Definition adder_source_path (name : string) : string :=
  path_join BASE_DIR ["run_verilog_mult_add_mid"; name].
Definition adder_dest_path (key : string) : string :=
  path_join (path_join BASE_DIR ["adder_template"]) [adder_template_name key].

(** The lines an extractor reads from [source] once [dest] is open for
    writing: those of the file, or none when the source is the
    destination itself, which opening has emptied. *)
Definition lines_read (source dest : string) (lines : list string) : list string :=
  if bool_decide (source = dest) then [] else lines.

(** The selection of the adder extractor, line by line.  A comment line
    is kept when it holds no ['2'] and fewer than [bits] such comment
    lines precede it; another line is kept when a marker line is at or
    before it. *)
Definition is_comment (line : string) : bool := startswith "//" line.

Definition qualifies (line : string) : bool :=
  is_comment line && negb (char_in "2" line).

Definition marker_seen (seen : list string) : bool :=
  existsb (startswith ADDER_MARKER) seen.

Definition adder_keeps (bits : Z) (before : list string) (line : string) : bool :=
  if is_comment line
  then negb (char_in "2" line)
       && (Z.of_nat (length (List.filter qualifies before)) <? bits)
  else marker_seen (before ++ [line]).

Fixpoint selection (keeps : list string -> string -> bool)
    (before rest : list string) : list string :=
  match rest with
  | [] => []
  | line :: rest' =>
      (if keeps before line then [line] else [])
      ++ selection keeps (before ++ [line]) rest'
  end.

Definition adder_selection (bits : Z) (lines : list string) : list string :=
  selection (adder_keeps bits) [] lines.

(** A command line of round [k]: the stage-1 script with the key of the
    round as its eighth word, or the stage-2 script with that key as its
    tenth word. *)
Definition of_round (k : Z) (cmd : list string) : Prop :=
  (nth_error cmd 1 = Some (path_join BASE_DIR ["PPO2_mult.py"])
   /\ nth_error cmd 7 = Some (round_key k))
  \/ (nth_error cmd 1 = Some (path_join BASE_DIR ["MCTS_mult.py"])
      /\ nth_error cmd 9 = Some (round_key k)).

(** A range whose elements grow, starting at [lo] or above. *)
Fixpoint increasing_from (lo : Z) (ks : list Z) : Prop :=
  match ks with
  | [] => True
  | k :: rest => lo <= k /\ increasing_from (k + 1) rest
  end.

(** A line of white space only, the empty line among them. *)
Fixpoint is_blank (line : string) : bool :=
  match line with
  | EmptyString => true
  | String c rest => is_space c && is_blank rest
  end.

(** The lines of a design that are no comments. *)
Definition code_lines (lines : list string) : list string :=
  List.filter (fun line => negb (is_comment line)) lines.

Definition comment_lines (lines : list string) : list string :=
  List.filter is_comment lines.

(** A line that is the marker itself, with or without its line end. *)
Definition is_marker_line (line : string) : bool :=
  String.eqb line ADDER_MARKER || String.eqb line (ADDER_MARKER ++ NL).

(** ** The order of binary64 *)

Ltac cmp_cases :=
  repeat match goal with
  | H : context [PosDef.Pos.compare_cont Eq ?a ?b] |- _ =>
      change (PosDef.Pos.compare_cont Eq a b) with (Pos.compare a b) in H
  | |- context [PosDef.Pos.compare_cont Eq ?a ?b] =>
      change (PosDef.Pos.compare_cont Eq a b) with (Pos.compare a b)
  | H : context [Z.compare ?a ?b] |- _ =>
      destruct (Z.compare_spec a b); simpl in H; try discriminate H
  | H : context [Pos.compare ?a ?b] |- _ =>
      destruct (Pos.compare_spec a b); simpl in H; try discriminate H
  | |- context [Z.compare ?a ?b] =>
      destruct (Z.compare_spec a b); simpl
  | |- context [Pos.compare ?a ?b] =>
      destruct (Pos.compare_spec a b); simpl
  end.

Lemma SFltb_trans (x y z : spec_float) :
  SFltb x y = true -> SFltb y z = true -> SFltb x z = true.
Proof.
  unfold SFltb.
  destruct x as [[]|[]| |[] m1 e1], y as [[]|[]| |[] m2 e2]; simpl;
    try discriminate;
    destruct z as [[]|[]| |[] m3 e3]; simpl; try discriminate;
    try reflexivity; intros H1 H2; cmp_cases; try reflexivity; try lia.
Qed.

Lemma SFleb_ltb_trans (x y z : spec_float) :
  SFleb x y = true -> SFltb y z = true -> SFltb x z = true.
Proof.
  unfold SFltb, SFleb.
  destruct x as [[]|[]| |[] m1 e1], y as [[]|[]| |[] m2 e2]; simpl;
    try discriminate;
    destruct z as [[]|[]| |[] m3 e3]; simpl; try discriminate;
    try reflexivity; intros H1 H2; cmp_cases; try reflexivity; try lia.
Qed.

Lemma SFltb_irrefl (x : spec_float) : SFltb x x = false.
Proof.
  unfold SFltb.
  destruct x as [[]|[]| |[] m e]; simpl; try reflexivity;
    rewrite Z.compare_refl;
    change (PosDef.Pos.compare_cont Eq m m) with (Pos.compare m m);
    rewrite Pos.compare_refl; reflexivity.
Qed.

Lemma ltb_trans (x y z : float) :
  (x <? y)%float = true -> (y <? z)%float = true -> (x <? z)%float = true.
Proof. rewrite !ltb_spec. apply SFltb_trans. Qed.

Lemma leb_ltb_trans (x y z : float) :
  (x <=? y)%float = true -> (y <? z)%float = true -> (x <? z)%float = true.
Proof. rewrite leb_spec, !ltb_spec. apply SFleb_ltb_trans. Qed.

Lemma ltb_irrefl (x : float) : (x <? x)%float = false.
Proof. rewrite ltb_spec. apply SFltb_irrefl. Qed.


(** ** The log selectors *)

Ltac unfold_bind := unfold mbind, result_bind, rbind.

(** The two loops are the same function of the lines. *)
Lemma mcts_lines_ppo_lines (lines : list string) (b : best) :
  mcts_lines lines b = ppo_lines lines b.
Proof.
  revert b. induction lines as [|line rest IH]; intros b; [reflexivity|].
  cbn [mcts_lines ppo_lines]. unfold_bind.
  repeat match goal with
         | |- context [index ?p ?k] => destruct (index p k); [|reflexivity]
         | |- context [to_float ?p] => destruct (to_float p); [|reflexivity]
         end.
  destruct (_ <? _)%float; apply IH.
Qed.


(** C10. The selectors of the two stages are the same function of the
    log: on two result logs with the same lines, whatever their paths and
    file systems, [get_best_file_from_ppo] and [get_best_file_from_mcts]
    give the same outcome, the identifier and raw record of the winner or
    the same exception. *)
Theorem selectors_agree (fs1 fs2 : filesystem) (key1 key2 : string)
    (bits1 bits2 : Z) (lines : list string) :
  fs1 !! ppo_log_path key1 bits1 = Some lines ->
  fs2 !! mcts_log_path key2 bits2 = Some lines ->
  get_best_file_from_mcts fs2 key2 bits2 = get_best_file_from_ppo fs1 key1 bits1.
Proof.
  intros H1 H2. unfold get_best_file_from_mcts, get_best_file_from_ppo.
  rewrite H1, H2, mcts_lines_ppo_lines. reflexivity.
Qed.

(** One pass of the loop on a well-formed line: the record has an
    identifier and a score, and the pass compares that score with the
    running best. *)
Lemma ppo_lines_well_formed (line : string) :
  well_formed line = true ->
  exists (id : string) (s : float),
    record_id line = Some id /\ record_score line = Some s
    /\ forall (rest : list string) (b : best),
        ppo_lines (line :: rest) b
        = if (s <? best_score b)%float
          then ppo_lines rest (Best s (Some id) (Some (strip line)))
          else ppo_lines rest b.
Proof.
  unfold well_formed, record_id, record_score, metric, fields.
  intros H. apply andb_prop in H as [Hlen Hnum].
  cbn [forallb] in Hnum.
  destruct (split (ascii_of_nat 9) (strip line)) as [|p0 [|p1 [|p2 [|p3 [|p4 ps]]]]] eqn:E;
    try discriminate Hlen.
  cbn [nth_error] in *. cbn [mbind option_bind] in *.
  apply andb_prop in Hnum as [[m1 E1]%bool_decide_eq_true Hnum].
  apply andb_prop in Hnum as [[m2 E2]%bool_decide_eq_true Hnum].
  apply andb_prop in Hnum as [[m3 E3]%bool_decide_eq_true Hnum].
  apply andb_prop in Hnum as [[m4 E4]%bool_decide_eq_true _].
  exists p0, (m1 + m2 * area_w + m3 + m4 * area_w)%float.
  rewrite E1, E2, E3, E4. cbn [mbind option_bind]. repeat split.
  intros rest b. cbn [ppo_lines]. rewrite E. unfold_bind. unfold index, to_float.
  cbn [nth_error]. rewrite E1, E2, E3, E4. reflexivity.
Qed.


(** The loop keeps [running_best] and does not raise on well-formed
    lines. *)
Lemma ppo_lines_running_best (rest pre : list string) (b : best) :
  Forall (fun line => well_formed line = true) rest ->
  running_best pre b ->
  exists b' : best, ppo_lines rest b = Ok b' /\ running_best (pre ++ rest) b'.
Proof.
  revert pre b. induction rest as [|line rest IH]; intros pre b Hwf Hinv.
  { exists b. rewrite app_nil_r. split; [reflexivity|assumption]. }
  apply Forall_cons in Hwf as [Hline Hwf].
  destruct (ppo_lines_well_formed line Hline) as (id & s & Hid & Hs & Hstep).
  rewrite Hstep. destruct Hinv as [Hmin Hpick].
  replace (pre ++ line :: rest)%list with ((pre ++ [line]) ++ rest)%list
    by (rewrite <- app_assoc; reflexivity).
  destruct (s <? best_score b)%float eqn:Hlt; apply IH; try assumption; split.
  - intros j line' s' Hj Hs'. cbn [best_score].
    destruct (decide (j < length pre)%nat) as [Hlen|Hlen].
    + rewrite lookup_app_l in Hj by assumption.
      destruct (s' <? s)%float eqn:Hc; [|reflexivity].
      pose proof (Hmin j line' s' Hj Hs') as Hm.
      rewrite (ltb_trans _ _ _ Hc Hlt) in Hm. discriminate.
    + rewrite lookup_app_r in Hj by lia.
      destruct (j - length pre)%nat; [|discriminate].
      injection Hj as <-. rewrite Hs in Hs'. injection Hs' as <-. apply ltb_irrefl.
  - right. exists (length pre), line, id. cbn [best_score best_verilog_file best_data_line].
    repeat split; try assumption.
    + apply list_lookup_middle. reflexivity.
    + destruct Hpick as [->|(k & l0 & i0 & _ & _ & _ & Hinf & _)]; [exact Hlt|].
      exact (ltb_trans _ _ _ Hlt Hinf).
    + intros j line' s' Hj Hl Hs'. rewrite lookup_app_l in Hl by assumption.
      destruct (s' <=? s)%float eqn:Hc; [|reflexivity].
      pose proof (Hmin j line' s' Hl Hs') as Hm.
      rewrite (leb_ltb_trans _ _ _ Hc Hlt) in Hm. discriminate.
  - intros j line' s' Hj Hs'.
    destruct (decide (j < length pre)%nat) as [Hlen|Hlen].
    + rewrite lookup_app_l in Hj by assumption. exact (Hmin j line' s' Hj Hs').
    + rewrite lookup_app_r in Hj by lia.
      destruct (j - length pre)%nat; [|discriminate].
      injection Hj as <-. rewrite Hs in Hs'. injection Hs' as <-. exact Hlt.
  - destruct Hpick as [->|(k & l0 & i0 & Hk & Hrest)]; [left; reflexivity|].
    right. exists k, l0, i0. pose proof (lookup_lt_Some _ _ _ Hk) as Hlen.
    split; [rewrite lookup_app_l by assumption; exact Hk|].
    destruct Hrest as (? & ? & ? & ? & ? & Hearlier). repeat split; try assumption.
    intros j line' s' Hj Hl. rewrite lookup_app_l in Hl by lia.
    exact (Hearlier j line' s' Hj Hl).
Qed.


Lemma ppo_lines_selects (lines : list string) :
  Forall (fun line => well_formed line = true) lines ->
  exists b : best,
    ppo_lines lines init_best = Ok b
    /\ selects lines (Ok (best_verilog_file b, best_data_line b)).
Proof.
  intros Hwf.
  destruct (ppo_lines_running_best lines [] init_best Hwf) as (b & Hrun & Hmin & Hpick).
  { split; [|left; reflexivity]. intros j line' s' Hj. discriminate Hj. }
  exists b. split; [exact Hrun|]. cbn [app] in *.
  destruct Hpick as [->|(k & line & id & Hk & Hid & Hs & Hinf & Hfile & Hdata & Hearlier)].
  - right. split; [reflexivity|]. intros line' s' Hin Hs'.
    apply list_elem_of_In, list_elem_of_lookup_1 in Hin as [j Hj].
    exact (Hmin j line' s' Hj Hs').
  - left. exists k, line, id, (best_score b). rewrite Hfile, Hdata.
    do 4 (split; [assumption|]). split; [reflexivity|].
    intros j line' s' Hj Hs'. split.
    + exact (Hmin j line' s' Hj Hs').
    + intros Hjk. exact (Hearlier j line' s' Hjk Hj Hs').
Qed.

(** C1, as the code has it.  On a present result log whose lines all have
    at least five tab-separated fields with numbers in fields 2 to 5,
    either selector returns without raising; it returns the identifier
    field and the trimmed line of the earliest record of minimum score
    [m1 + m2*weight + m3 + m4*weight] under the comparison of floats,
    among the records whose score lies below infinity, and
    [(None, None)] when no score lies below infinity. *)
Theorem select_best_earliest_minimum (fsys : filesystem) (key : string)
    (bits : Z) (lines : list string) :
  Forall (fun line => well_formed line = true) lines ->
  (fsys !! ppo_log_path key bits = Some lines ->
   selects lines (get_best_file_from_ppo fsys key bits))
  /\ (fsys !! mcts_log_path key bits = Some lines ->
      selects lines (get_best_file_from_mcts fsys key bits)).
Proof.
  intros Hwf. destruct (ppo_lines_selects lines Hwf) as (b & Hrun & Hsel).
  split; intros Hlog.
  - unfold get_best_file_from_ppo. rewrite Hlog, Hrun. exact Hsel.
  - unfold get_best_file_from_mcts. rewrite Hlog, mcts_lines_ppo_lines, Hrun.
    exact Hsel.
Qed.


(** ** The template extractors *)

Lemma marker_not_comment (line : string) :
  startswith ADDER_MARKER line = true -> startswith "//" line = false.
Proof.
  destruct line as [|c r]; [discriminate|].
  unfold startswith, ADDER_MARKER. cbn [String.prefix].
  destruct (ascii_dec "m" c) as [<-|]; [|discriminate].
  intros _. reflexivity.
Qed.

(** What is read once the destination is open, and what the second
    write to the destination leaves. *)
Lemma read_after_open (fsys : filesystem) (source dest : string)
    (lines : list string) :
  fsys !! source = Some lines ->
  default [] ((<[dest := []]> fsys : filesystem) !! source)
  = lines_read source dest lines.
Proof.
  intros H. unfold lines_read. rewrite lookup_insert.
  destruct (decide (dest = source)) as [->|Hne].
  - rewrite bool_decide_eq_true_2 by reflexivity. reflexivity.
  - rewrite bool_decide_eq_false_2 by congruence. rewrite H. reflexivity.
Qed.

Lemma marker_seen_snoc (before : list string) (line : string) :
  marker_seen (before ++ [line]) = marker_seen before || startswith ADDER_MARKER line.
Proof.
  unfold marker_seen. rewrite existsb_app. cbn [existsb].
  rewrite orb_false_r. reflexivity.
Qed.

Lemma qualifying_snoc (before : list string) (line : string) :
  Z.of_nat (length (List.filter qualifies (before ++ [line])))
  = Z.of_nat (length (List.filter qualifies before))
    + (if qualifies line then 1 else 0).
Proof.
  rewrite List.filter_app, length_app. cbn [List.filter].
  destruct (qualifies line); cbn [length]; lia.
Qed.

(** The counter of the loop follows the number of qualifying comment
    lines met so far until it reaches [bits], where it stops. *)
Lemma adder_lines_selection (bits : Z) (rest before : list string) (cnt : Z) :
  cnt = Z.of_nat (length (List.filter qualifies before))
  \/ (bits <= cnt /\ bits <= Z.of_nat (length (List.filter qualifies before))) ->
  adder_lines bits rest cnt (marker_seen before)
  = selection (adder_keeps bits) before rest.
Proof.
  revert before cnt. induction rest as [|line rest IH]; intros before cnt Hcnt;
    [reflexivity|].
  cbn [adder_lines selection].
  change (adder_keeps bits before line)
    with (if startswith "//" line
          then negb (char_in "2" line)
               && (Z.of_nat (length (List.filter qualifies before)) <? bits)
          else marker_seen (before ++ [line])).
  pose proof (qualifying_snoc before line) as Hq.
  pose proof (marker_seen_snoc before line) as Hseen.
  unfold qualifies at 3 in Hq. unfold is_comment in Hq.
  destruct (startswith "//" line) eqn:Hc; cbn [negb andb] in *.
  - assert (startswith ADDER_MARKER line = false) as Hm.
    { destruct (startswith ADDER_MARKER line) eqn:Hm; [|reflexivity].
      apply marker_not_comment in Hm. congruence. }
    rewrite Hm, orb_false_r in Hseen.
    destruct (char_in "2" line); cbn [negb andb app] in *.
    + rewrite <- (IH (before ++ [line])%list cnt) by lia.
      rewrite Hseen. reflexivity.
    + assert ((cnt <? bits)
              = (Z.of_nat (length (List.filter qualifies before)) <? bits)) as Hdec.
      { destruct Hcnt as [->|[? ?]]; [reflexivity|].
        rewrite !(proj2 (Z.ltb_ge _ _)) by assumption. reflexivity. }
      rewrite <- Hdec. destruct (cnt <? bits) eqn:Hlt.
      * apply Z.ltb_lt in Hlt.
        rewrite <- (IH (before ++ [line])%list (cnt + 1)) by lia.
        rewrite Hseen. reflexivity.
      * apply Z.ltb_ge in Hlt. symmetry in Hdec. apply Z.ltb_ge in Hdec.
        rewrite <- (IH (before ++ [line])%list cnt) by lia.
        rewrite Hseen. reflexivity.
  - rewrite Hseen. destruct (startswith ADDER_MARKER line); rewrite ?orb_true_r, ?orb_false_r in *.
    + rewrite <- (IH (before ++ [line])%list cnt) by lia.
      rewrite Hseen. reflexivity.
    + rewrite <- (IH (before ++ [line])%list cnt) by lia.
      rewrite Hseen. destruct (marker_seen before); reflexivity.
Qed.

(** C2. [save_adder_file] writes the selection made line by line in one
    pass over the lines it reads: a comment line holding ['2'] is never
    kept, whatever the counter; of the other comment lines the first
    [bits] are kept and the later ones dropped, before and after the
    marker alike; a line that is no comment is kept exactly when a marker
    line is at or before it.  (A source that is the destination itself is
    read as empty, since opening it for writing comes first.) *)
Theorem save_adder_file_selection (fsys : filesystem) (name key : string)
    (bits : Z) (lines : list string) :
  fsys !! adder_source_path name = Some lines ->
  save_adder_file fsys (Some name) key bits
  = Ok (<[adder_dest_path key :=
            adder_selection bits
              (lines_read (adder_source_path name) (adder_dest_path key) lines)]> fsys,
        adder_template_name key).
Proof.
  intros H. unfold save_adder_file, join_name. unfold_bind.
  fold (adder_source_path name). fold (adder_dest_path key). rewrite H.
  rewrite (read_after_open _ _ _ _ H), insert_insert_eq.
  unfold adder_selection.
  rewrite <- (adder_lines_selection bits _ [] 0) by (left; reflexivity).
  reflexivity.
Qed.


(** The loop of [save_mult_file] stops at the first line that starts
    with the marker. *)
Lemma mult_lines_prefix (lines : list string) :
  exists rest : list string,
    lines = (mult_lines lines ++ rest)%list
    /\ Forall (fun line => startswith ADDER_MARKER line = false) (mult_lines lines)
    /\ (rest = []
        \/ exists (line : string) (rest' : list string),
            rest = line :: rest' /\ startswith ADDER_MARKER line = true).
Proof.
  induction lines as [|line lines (rest & Heq & Hall & Hrest)].
  - exists []. repeat split; [constructor|left; reflexivity].
  - cbn [mult_lines]. destruct (startswith ADDER_MARKER line) eqn:Hm; cbn [negb].
    + exists (line :: lines). repeat split; [constructor|].
      right. exists line, lines. split; [reflexivity|exact Hm].
    + exists rest. cbn [app]. rewrite <- Heq. repeat split; [|exact Hrest].
      constructor; assumption.
Qed.

(** C3, as the code has it.  [save_mult_file] copies the lines it reads,
    verbatim and in order, up to but not including the first line that
    starts with the marker [module adder(a,b,s);], whatever follows the
    marker on that line, and drops that line and the rest; when no line
    starts with the marker, every line is copied. *)
Theorem save_mult_file_prefix (fsys : filesystem) (name key : string)
    (lines : list string) :
  fsys !! mult_source_path name = Some lines ->
  exists written rest : list string,
    save_mult_file fsys (Some name) key
    = Ok (<[mult_dest_path key := written]> fsys, mult_template_name key)
    /\ lines_read (mult_source_path name) (mult_dest_path key) lines
       = (written ++ rest)%list
    /\ Forall (fun line => startswith ADDER_MARKER line = false) written
    /\ (rest = []
        \/ exists (line : string) (rest' : list string),
            rest = line :: rest' /\ startswith ADDER_MARKER line = true).
Proof.
  intros H.
  destruct (mult_lines_prefix
              (lines_read (mult_source_path name) (mult_dest_path key) lines))
    as (rest & Heq & Hall & Hrest).
  exists (mult_lines (lines_read (mult_source_path name) (mult_dest_path key) lines)), rest.
  split; [|repeat split; assumption].
  unfold save_mult_file, join_name. unfold_bind.
  fold (mult_source_path name). fold (mult_dest_path key). rewrite H.
  rewrite (read_after_open _ _ _ _ H), insert_insert_eq. reflexivity.
Qed.

(** C8. Extracting the multiplier template twice from the same source
    and round key leaves the file system of the first extraction: the
    name of the template is a function of the key alone, and the second
    run writes the same lines to the same path. *)
Theorem save_mult_file_idempotent (fsys fsys' : filesystem)
    (name : option string) (key template : string) :
  save_mult_file fsys name key = Ok (fsys', template) ->
  template = mult_template_name key
  /\ save_mult_file fsys' name key = Ok (fsys', template).
Proof.
  destruct name as [name|]; [|discriminate].
  unfold save_mult_file, join_name. unfold_bind.
  fold (mult_source_path name). fold (mult_dest_path key).
  destruct (fsys !! mult_source_path name) as [lines|] eqn:H; [|discriminate].
  rewrite (read_after_open _ _ _ _ H), insert_insert_eq.
  intros [= <- <-]. split; [reflexivity|].
  set (written := mult_lines (lines_read _ _ lines)).
  assert (exists lines' : list string,
             (<[mult_dest_path key := written]> fsys : filesystem)
               !! mult_source_path name = Some lines'
             /\ mult_lines (lines_read (mult_source_path name) (mult_dest_path key) lines')
                = written) as (lines' & H' & Hsame).
  { subst written. unfold lines_read. rewrite lookup_insert.
    destruct (decide (mult_dest_path key = mult_source_path name)) as [Heq|Hne].
    - rewrite bool_decide_eq_true_2 by congruence. eexists. split; reflexivity.
    - rewrite bool_decide_eq_false_2 by congruence. exists lines. split; [exact H|reflexivity]. }
  rewrite H', (read_after_open _ _ _ _ H'), Hsame, !insert_insert_eq. reflexivity.
Qed.


(** ** The loop of [main] *)

Lemma range_total_times : range total_times = [0; 1; 2].
Proof. reflexivity. Qed.

(** C6. When the stage-1 job of round 0 exits with a failure, the run log
    holds the line of iteration 0, one error entry that names iteration 0
    and carries the captured output, and the line of the total time; the
    controller has run that one command and no other, neither stage 2 nor
    a later round, and it has written no file: the file system is as the
    job left it. *)
Theorem stage1_failure_round0 (fsys fsys1 : filesystem) (cmd : list string)
    (output : string) :
  ppo_cmd 0 None = Ok cmd ->
  capture_subprocess_output cmd fsys = (false, output, fsys1) ->
  main fsys
  = (State fsys1 [iteration_line 0; ppo_error_line 0 output; total_line] [cmd] 0 None,
     Finished).
Proof.
  intros Hcmd Hrun. unfold main. rewrite range_total_times.
  cbn [for_range]. unfold body, rebind.
  cbn [fs flog cmds i template_adder_name write]. rewrite Hcmd.
  unfold run, write. cbn [fs flog cmds i template_adder_name]. rewrite Hrun.
  cbn [negb fs flog cmds i template_adder_name app]. reflexivity.
Qed.


Ltac step_state :=
  unfold run, write, set_fs;
  cbn [fs flog cmds i template_adder_name negb state_of].

Ltac log_shape :=
  cbn [state_of flog]; rewrite <- ?app_assoc; cbn [app];
  first [reflexivity | eexists; reflexivity].

(** C9, as the code has it.  In any round whose stage-1 job succeeds and
    whose stage-1 selector returns a record, the entry written to the run
    log after the line of the iteration is [PPO:], a tab, the raw record
    and a line end; when stage 2 also succeeds and its selector returns a
    record, the next entry is [MCTS], a tab, the raw record and a line
    end. *)
Theorem winner_log_lines (st : state) (cmd : list string) (out1 : string)
    (fsys1 : filesystem) (file1 : option string) (raw1 : string) :
  ppo_cmd (i st) (template_adder_name st) = Ok cmd ->
  capture_subprocess_output cmd (fs st) = (true, out1, fsys1) ->
  get_best_file_from_ppo fsys1 (round_key (i st)) input_bit = Ok (file1, Some raw1) ->
  (exists rest : list string,
      flog (state_of (body st))
      = (flog st ++ [iteration_line (i st); ppo_line raw1] ++ rest)%list)
  /\ forall (fsys2 fsys3 : filesystem) (template out2 : string)
       (file2 : option string) (raw2 : string),
      save_mult_file fsys1 file1 (round_key (i st)) = Ok (fsys2, template) ->
      capture_subprocess_output (mcts_cmd (i st) template) fsys2 = (true, out2, fsys3) ->
      get_best_file_from_mcts fsys3 (round_key (i st)) (input_bit * 2)
      = Ok (file2, Some raw2) ->
      flog (state_of (body st))
      = (flog st ++ [iteration_line (i st); ppo_line raw1; mcts_line raw2])%list.
Proof.
  intros Hcmd Hrun Hsel. unfold body. step_state. rewrite Hcmd. step_state.
  rewrite Hrun. step_state. rewrite Hsel. step_state. cbn [fmt default].
  fold (iteration_line (i st)). split.
  - destruct (save_mult_file fsys1 file1 (round_key (i st))) as [[fsys2 template]|e];
      [|log_shape].
    step_state.
    destruct (capture_subprocess_output (mcts_cmd (i st) template) fsys2)
      as [[[] out2] fsys3]; step_state; [|log_shape].
    destruct (get_best_file_from_mcts fsys3 (round_key (i st)) (input_bit * 2))
      as [[file2 line2]|[]]; step_state; try log_shape.
    destruct (save_adder_file fsys3 file2 (round_key (i st)) (input_bit * 2))
      as [[fsys4 name]|e]; log_shape.
  - intros fsys2 fsys3 template out2 file2 raw2 Hsave Hrun2 Hsel2.
    rewrite Hsave. step_state. rewrite Hrun2. step_state. rewrite Hsel2.
    step_state. cbn [fmt default].
    destruct (save_adder_file fsys3 file2 (round_key (i st)) (input_bit * 2))
      as [[fsys4 name]|e]; log_shape.
Qed.


(** A malformed line makes the pass over it raise. *)
Lemma ppo_lines_malformed_head (line : string) (rest : list string) (b : best) :
  well_formed line = false ->
  ppo_lines (line :: rest) b = Raise IndexError
  \/ ppo_lines (line :: rest) b = Raise ValueError.
Proof.
  unfold well_formed, metric, fields. cbn [ppo_lines forallb]. unfold_bind.
  unfold index, to_float.
  destruct (split (ascii_of_nat 9) (strip line)) as [|p0 [|p1 [|p2 [|p3 [|p4 ps]]]]];
    cbn [nth_error mbind option_bind length]; intros Hbad;
    repeat match goal with
           | |- context [py_float ?p] => destruct (py_float p) eqn:?
           end;
    auto.
  exfalso. revert Hbad. cbn [Nat.leb andb].
  rewrite !bool_decide_eq_true_2 by (eexists; reflexivity). discriminate.
Qed.

Lemma ppo_lines_malformed (lines : list string) (b : best) :
  Exists (fun line => well_formed line = false) lines ->
  ppo_lines lines b = Raise IndexError \/ ppo_lines lines b = Raise ValueError.
Proof.
  revert b. induction lines as [|line rest IH]; intros b Hbad.
  - inversion Hbad.
  - destruct (well_formed line) eqn:Hline.
    + destruct (ppo_lines_well_formed line Hline) as (id & s & _ & _ & Hstep).
      rewrite Hstep. apply Exists_cons in Hbad as [Hbad|Hbad]; [congruence|].
      destruct (s <? best_score b)%float; apply IH; exact Hbad.
    + apply ppo_lines_malformed_head. exact Hline.
Qed.

(** C5, as the code has it.  When a line of a present stage-1 log has
    fewer than five fields or a field 2 to 5 that is no number, the
    selector raises [IndexError] or [ValueError]; [main] catches only
    [AssertionError], so in round 0 the exception leaves [main]: the run
    log holds the line of iteration 0 and nothing else, neither a
    diagnostic nor the total time. *)
Theorem malformed_record_round0 (fsys fsys1 : filesystem) (cmd lines : list string)
    (output : string) :
  ppo_cmd 0 None = Ok cmd ->
  capture_subprocess_output cmd fsys = (true, output, fsys1) ->
  fsys1 !! ppo_log_path (round_key 0) input_bit = Some lines ->
  Exists (fun line => well_formed line = false) lines ->
  exists e : exn,
    (e = IndexError \/ e = ValueError)
    /\ get_best_file_from_ppo fsys1 (round_key 0) input_bit = Raise e
    /\ main fsys = (State fsys1 [iteration_line 0] [cmd] 0 None, Crashed e).
Proof.
  intros Hcmd Hrun Hlog Hbad.
  assert (exists e : exn,
             (e = IndexError \/ e = ValueError)
             /\ get_best_file_from_ppo fsys1 (round_key 0) input_bit = Raise e)
    as (e & He & Hsel).
  { unfold get_best_file_from_ppo. rewrite Hlog. unfold_bind.
    destruct (ppo_lines_malformed lines init_best Hbad) as [-> | ->];
      eexists; (split; [|reflexivity]); auto. }
  exists e. repeat split; try assumption.
  unfold main. rewrite range_total_times. cbn [for_range]. unfold body, rebind.
  step_state. rewrite Hcmd. step_state. rewrite Hrun. step_state. rewrite Hsel.
  destruct He as [-> | ->]; reflexivity.
Qed.


(** The loop after rounds that complete: a pass that ends at a [break]
    ends the loop in the ordinary way, and a pass that ends with an
    uncaught exception ends it with that exception. *)
Lemma for_range_break (before after : list Z) (k : Z) (st0 st st' : state) :
  completes before st0 = Some st ->
  body (rebind k st) = Break st' ->
  for_range (before ++ k :: after) st0 = (st', Finished).
Proof.
  revert st0. induction before as [|j before IH]; intros st0; cbn [completes app for_range].
  - intros [= ->] ->. reflexivity.
  - destruct (body (rebind j st0)) as [st1| |]; [apply IH|discriminate|discriminate].
Qed.

Lemma for_range_uncaught (before after : list Z) (k : Z) (st0 st st' : state)
    (e : exn) :
  completes before st0 = Some st ->
  body (rebind k st) = Uncaught e st' ->
  for_range (before ++ k :: after) st0 = (st', Crashed e).
Proof.
  revert st0. induction before as [|j before IH]; intros st0; cbn [completes app for_range].
  - intros [= ->] ->. reflexivity.
  - destruct (body (rebind j st0)) as [st1| |]; [apply IH|discriminate|discriminate].
Qed.

(** C4, as the code has it.  On a path that does not exist either
    selector raises [AssertionError] with the message that names the
    path, and [main] reports it, in whichever round [k] and at whichever
    stage it happens: the message is written to the run log, the loop is
    left and the run ends in the ordinary way with the line of the total
    time.  On a log that exists and holds no line either selector raises
    nothing and returns [(None, None)]; [main] then writes [None] as the
    winner, the extractor that follows raises [TypeError], and nothing
    catches it: the run ends with that exception and without the line of
    the total time. *)
Theorem missing_or_empty_log (fsys : filesystem) (before after : list Z) (k : Z)
    (st : state) :
  range total_times = (before ++ k :: after)%list ->
  completes before (State fsys [] [] 0 None) = Some st ->
  (forall (fsys' : filesystem) (key : string) (bits : Z),
      (fsys' !! ppo_log_path key bits = None ->
       get_best_file_from_ppo fsys' key bits
       = Raise (AssertionError (missing_log (ppo_log_path key bits))))
      /\ (fsys' !! mcts_log_path key bits = None ->
          get_best_file_from_mcts fsys' key bits
          = Raise (AssertionError (missing_log (mcts_log_path key bits))))
      /\ (fsys' !! ppo_log_path key bits = Some [] ->
          get_best_file_from_ppo fsys' key bits = Ok (None, None))
      /\ (fsys' !! mcts_log_path key bits = Some [] ->
          get_best_file_from_mcts fsys' key bits = Ok (None, None)))
  /\ forall (cmd : list string) (out1 : string) (fsys1 : filesystem),
      ppo_cmd k (template_adder_name st) = Ok cmd ->
      capture_subprocess_output cmd (fs st) = (true, out1, fsys1) ->
      (fsys1 !! ppo_log_path (round_key k) input_bit = None ->
       main fsys
       = (State fsys1
            (flog st
             ++ [iteration_line k;
                 missing_log (ppo_log_path (round_key k) input_bit) ++ NL;
                 total_line])
            (cmds st ++ [cmd]) k (template_adder_name st),
          Finished))
      /\ (fsys1 !! ppo_log_path (round_key k) input_bit = Some [] ->
          main fsys
          = (State fsys1 (flog st ++ [iteration_line k; ppo_line "None"])
               (cmds st ++ [cmd]) k (template_adder_name st),
             Crashed TypeError))
      /\ forall (file1 : option string) (raw1 template out2 : string)
           (fsys2 fsys3 : filesystem),
          get_best_file_from_ppo fsys1 (round_key k) input_bit = Ok (file1, Some raw1) ->
          save_mult_file fsys1 file1 (round_key k) = Ok (fsys2, template) ->
          capture_subprocess_output (mcts_cmd k template) fsys2 = (true, out2, fsys3) ->
          (fsys3 !! mcts_log_path (round_key k) (input_bit * 2) = None ->
           main fsys
           = (State fsys3
                (flog st
                 ++ [iteration_line k; ppo_line raw1;
                     missing_log (mcts_log_path (round_key k) (input_bit * 2)) ++ NL;
                     total_line])
                (cmds st ++ [cmd; mcts_cmd k template]) k (template_adder_name st),
              Finished))
          /\ (fsys3 !! mcts_log_path (round_key k) (input_bit * 2) = Some [] ->
              main fsys
              = (State fsys3
                   (flog st ++ [iteration_line k; ppo_line raw1; mcts_line "None"])
                   (cmds st ++ [cmd; mcts_cmd k template]) k (template_adder_name st),
                 Crashed TypeError)).
Proof.
  intros Hrange Hdone. split.
  { intros fsys' key bits. repeat split; intros H.
    - unfold get_best_file_from_ppo. rewrite H. reflexivity.
    - unfold get_best_file_from_mcts. rewrite H. reflexivity.
    - unfold get_best_file_from_ppo. rewrite H. reflexivity.
    - unfold get_best_file_from_mcts. rewrite H. reflexivity. }
  intros cmd out1 fsys1 Hcmd Hrun. unfold main. rewrite Hrange.
  split; [|split].
  - intros Hlog.
    rewrite (for_range_break before after k _ st
               (State fsys1
                  (flog st ++ [iteration_line k;
                               missing_log (ppo_log_path (round_key k) input_bit) ++ NL])
                  (cmds st ++ [cmd]) k (template_adder_name st)) Hdone).
    + unfold write. cbn [fs flog cmds i template_adder_name].
      rewrite <- app_assoc. reflexivity.
    + unfold body, rebind. step_state. rewrite Hcmd. step_state. rewrite Hrun.
      step_state. unfold get_best_file_from_ppo. rewrite Hlog. step_state.
      rewrite <- ?app_assoc. cbn [app]. reflexivity.
  - intros Hlog.
    rewrite (for_range_uncaught before after k _ st
               (State fsys1 (flog st ++ [iteration_line k; ppo_line "None"])
                  (cmds st ++ [cmd]) k (template_adder_name st)) TypeError Hdone);
      [reflexivity|].
    assert (get_best_file_from_ppo fsys1 (round_key k) input_bit = Ok (None, None))
      as Hnone by (unfold get_best_file_from_ppo; rewrite Hlog; reflexivity).
    unfold body, rebind. step_state. rewrite Hcmd. step_state. rewrite Hrun.
    step_state. rewrite Hnone. step_state.
    rewrite <- ?app_assoc. cbn [app]. reflexivity.
  - intros file1 raw1 template out2 fsys2 fsys3 Hsel Hsave Hrun2. split; intros Hlog.
    + rewrite (for_range_break before after k _ st
                 (State fsys3
                    (flog st
                     ++ [iteration_line k; ppo_line raw1;
                         missing_log (mcts_log_path (round_key k) (input_bit * 2)) ++ NL])
                    (cmds st ++ [cmd; mcts_cmd k template]) k (template_adder_name st))
                 Hdone).
      * unfold write. cbn [fs flog cmds i template_adder_name].
        rewrite <- app_assoc. reflexivity.
      * unfold body, rebind. step_state. rewrite Hcmd. step_state. rewrite Hrun.
        step_state. rewrite Hsel. step_state. rewrite Hsave. step_state.
        rewrite Hrun2. step_state. unfold get_best_file_from_mcts. rewrite Hlog.
        step_state. rewrite <- ?app_assoc. cbn [app]. reflexivity.
    + rewrite (for_range_uncaught before after k _ st
                 (State fsys3
                    (flog st ++ [iteration_line k; ppo_line raw1; mcts_line "None"])
                    (cmds st ++ [cmd; mcts_cmd k template]) k (template_adder_name st))
                 TypeError Hdone); [reflexivity|].
      assert (get_best_file_from_mcts fsys3 (round_key k) (input_bit * 2)
              = Ok (None, None))
        as Hnone by (unfold get_best_file_from_mcts; rewrite Hlog; reflexivity).
      unfold body, rebind. step_state. rewrite Hcmd. step_state. rewrite Hrun.
      step_state. rewrite Hsel. step_state. rewrite Hsave. step_state.
      rewrite Hrun2. step_state. rewrite Hnone. step_state.
      rewrite <- ?app_assoc. cbn [app]. reflexivity.
Qed.

(** The names of the templates are functions of the round key. *)
Lemma save_mult_file_name (fsys fsys' : filesystem) (name : option string)
    (key template : string) :
  save_mult_file fsys name key = Ok (fsys', template) ->
  template = mult_template_name key.
Proof.
  unfold save_mult_file. unfold_bind.
  destruct (join_name _ name); [|discriminate].
  destruct (fsys !! _); [|discriminate]. intros [= _ <-]. reflexivity.
Qed.

Lemma save_adder_file_name (fsys fsys' : filesystem) (name : option string)
    (key template : string) (bits : Z) :
  save_adder_file fsys name key bits = Ok (fsys', template) ->
  template = adder_template_name key.
Proof.
  unfold save_adder_file. unfold_bind.
  destruct (join_name _ name); [|discriminate].
  destruct (fsys !! _); [|discriminate]. intros [= _ <-]. reflexivity.
Qed.

(** A pass that reaches the end of the body has run the two jobs under
    the key of the bound [i], and leaves [i + 1] in the variable. *)
Lemma body_next (st st' : state) :
  body st = Next st' ->
  exists cmd : list string,
    ppo_cmd (i st) (template_adder_name st) = Ok cmd
    /\ cmds st' = (cmds st ++ [cmd; mcts_cmd (i st) (mult_template_name (round_key (i st)))])%list
    /\ i st' = i st + 1
    /\ template_adder_name st' = Some (adder_template_name (round_key (i st))).
Proof.
  unfold body. step_state.
  destruct (ppo_cmd (i st) (template_adder_name st)) as [cmd|]; [|discriminate].
  step_state.
  destruct (capture_subprocess_output cmd (fs st)) as [[[] out1] fsys1];
    step_state; [|discriminate].
  destruct (get_best_file_from_ppo fsys1 (round_key (i st)) input_bit)
    as [[file1 line1]|[]]; try discriminate.
  step_state.
  destruct (save_mult_file fsys1 file1 (round_key (i st)))
    as [[fsys2 template]|] eqn:Hsave; [|discriminate].
  apply save_mult_file_name in Hsave as ->. step_state.
  destruct (capture_subprocess_output _ fsys2) as [[[] out2] fsys3];
    step_state; [|discriminate].
  destruct (get_best_file_from_mcts fsys3 (round_key (i st)) (input_bit * 2))
    as [[file2 line2]|[]]; try discriminate.
  step_state.
  destruct (save_adder_file fsys3 file2 (round_key (i st)) (input_bit * 2))
    as [[fsys4 name]|] eqn:Hadd; [|discriminate].
  apply save_adder_file_name in Hadd as ->.
  intros [= <-]. exists cmd. cbn [cmds i template_adder_name].
  rewrite <- app_assoc. repeat split.
Qed.


Lemma completes_for_range (ks : list Z) (st st' : state) :
  completes ks st = Some st' -> for_range ks st = (st', Finished).
Proof.
  revert st. induction ks as [|k ks IH]; intros st; cbn [completes for_range].
  - intros [= <-]. reflexivity.
  - destruct (body (rebind k st)) as [st1| |]; [apply IH|discriminate|discriminate].
Qed.

(** The key of a stage-1 command line is its eighth word. *)
Lemma ppo_cmd_key (k : Z) (template : option string) (cmd : list string) :
  ppo_cmd k template = Ok cmd -> nth_error cmd 7 = Some (round_key k).
Proof.
  unfold ppo_cmd. destruct (0 <? k); [destruct template|];
    intros [= <-]; reflexivity.
Qed.

(** C7, as the code has it.  The increment at the end of the body does
    not reach the next pass, which binds the counter anew from the range:
    a run of [main] without failure makes [total_times] rounds under the
    consecutive keys 0, 1 and 2, running stage 1 and stage 2 once under
    each, and the increment shows only in the value 3 that the counter
    holds after the last pass. *)
Theorem rounds_use_consecutive_keys (fsys : filesystem) (st' : state) :
  completes (range total_times) (State fsys [] [] 0 None) = Some st' ->
  exists c0 c1 c2 : list string,
    ppo_cmd 0 None = Ok c0
    /\ ppo_cmd 1 (Some (adder_template_name (round_key 0))) = Ok c1
    /\ ppo_cmd 2 (Some (adder_template_name (round_key 1))) = Ok c2
    /\ nth_error c0 7 = Some (round_key 0)
    /\ nth_error c1 7 = Some (round_key 1)
    /\ nth_error c2 7 = Some (round_key 2)
    /\ cmds st'
       = [c0; mcts_cmd 0 (mult_template_name (round_key 0));
          c1; mcts_cmd 1 (mult_template_name (round_key 1));
          c2; mcts_cmd 2 (mult_template_name (round_key 2))]
    /\ i st' = 3
    /\ main fsys = (write st' total_line, Finished).
Proof.
  intros Hrun. pose proof (completes_for_range _ _ _ Hrun) as Hfor.
  rewrite range_total_times in Hrun. cbn [completes] in Hrun.
  destruct (body (rebind 0 _)) as [st1| |] eqn:Hb0; try discriminate.
  destruct (body (rebind 1 st1)) as [st2| |] eqn:Hb1; try discriminate.
  destruct (body (rebind 2 st2)) as [st3| |] eqn:Hb2; try discriminate.
  injection Hrun as ->.
  apply body_next in Hb0 as (c0 & Hc0 & Hcmds0 & Hi0 & Ht0).
  apply body_next in Hb1 as (c1 & Hc1 & Hcmds1 & Hi1 & Ht1).
  apply body_next in Hb2 as (c2 & Hc2 & Hcmds2 & Hi2 & Ht2).
  unfold rebind in *. cbn [fs flog cmds i template_adder_name] in *.
  rewrite Ht0 in Hc1. rewrite Ht1 in Hc2.
  exists c0, c1, c2.
  repeat split; try assumption; try (eapply ppo_cmd_key; eassumption).
  - rewrite Hcmds2, Hcmds1, Hcmds0. reflexivity.
  - unfold main. rewrite Hfor. reflexivity.
Qed.


(** ** Further properties of the loop *)

Ltac enter_round0 :=
  unfold main; rewrite range_total_times; cbn [for_range]; unfold body, rebind;
  step_state.


(** X2. When stage 1 of round 0 goes through and the stage-2 job exits
    with a failure, the run log holds the line of iteration 0, the PPO
    entry, one error entry that names [MCTS_mult.py] and iteration 0 with
    the captured output, and the line of the total time; the multiplier
    template of round 0 is on disk, no adder template is written and no
    further round is started. *)
Theorem stage2_failure_round0 (fsys fsys1 fsys2 fsys3 : filesystem)
    (cmd : list string) (out1 out2 raw template : string) (file1 : option string) :
  ppo_cmd 0 None = Ok cmd ->
  capture_subprocess_output cmd fsys = (true, out1, fsys1) ->
  get_best_file_from_ppo fsys1 (round_key 0) input_bit = Ok (file1, Some raw) ->
  save_mult_file fsys1 file1 (round_key 0) = Ok (fsys2, template) ->
  capture_subprocess_output (mcts_cmd 0 template) fsys2 = (false, out2, fsys3) ->
  main fsys
  = (State fsys3
       [iteration_line 0; ppo_line raw; mcts_error_line 0 out2; total_line]
       [cmd; mcts_cmd 0 template] 0 None,
     Finished).
Proof.
  intros Hcmd Hrun Hsel Hsave Hrun2. enter_round0. rewrite Hcmd. step_state.
  rewrite Hrun. step_state. rewrite Hsel. step_state. rewrite Hsave. step_state.
  rewrite Hrun2. step_state. reflexivity.
Qed.

(** X3. When stage 1 of round 0 goes through and the stage-2 job exits
    with success but leaves no result log, the assertion of the stage-2
    selector is reported: its message is written to the run log after the
    PPO entry, followed by the line of the total time; the run ends in
    the ordinary way after the two commands of round 0, with the file
    system as the stage-2 job left it. *)
Theorem stage2_missing_log_round0 (fsys fsys1 fsys2 fsys3 : filesystem)
    (cmd : list string) (out1 out2 raw template : string) (file1 : option string) :
  ppo_cmd 0 None = Ok cmd ->
  capture_subprocess_output cmd fsys = (true, out1, fsys1) ->
  get_best_file_from_ppo fsys1 (round_key 0) input_bit = Ok (file1, Some raw) ->
  save_mult_file fsys1 file1 (round_key 0) = Ok (fsys2, template) ->
  capture_subprocess_output (mcts_cmd 0 template) fsys2 = (true, out2, fsys3) ->
  fsys3 !! mcts_log_path (round_key 0) (input_bit * 2) = None ->
  main fsys
  = (State fsys3
       [iteration_line 0; ppo_line raw;
        missing_log (mcts_log_path (round_key 0) (input_bit * 2)) ++ NL;
        total_line]
       [cmd; mcts_cmd 0 template] 0 None,
     Finished).
Proof.
  intros Hcmd Hrun Hsel Hsave Hrun2 Hlog. enter_round0. rewrite Hcmd. step_state.
  rewrite Hrun. step_state. rewrite Hsel. step_state. rewrite Hsave. step_state.
  rewrite Hrun2. step_state. unfold get_best_file_from_mcts. rewrite Hlog.
  step_state. reflexivity.
Qed.


(** What the parts of a round can raise. *)
Lemma ppo_lines_raises (lines : list string) (b : best) (e : exn) :
  ppo_lines lines b = Raise e -> e = IndexError \/ e = ValueError.
Proof.
  revert b. induction lines as [|line rest IH]; intros b; [discriminate|].
  cbn [ppo_lines]. unfold_bind. unfold index, to_float.
  repeat match goal with
         | |- context [nth_error ?l ?k] =>
             destruct (nth_error l k); [|intros [= <-]; auto]
         | |- context [py_float ?p] =>
             destruct (py_float p); [|intros [= <-]; auto]
         end.
  destruct (_ <? _)%float; [|apply IH].
  destruct (nth_error _ 0); [apply IH|intros [= <-]; auto].
Qed.

Lemma get_best_file_from_ppo_raises (fsys : filesystem) (key : string) (bits : Z)
    (e : exn) :
  get_best_file_from_ppo fsys key bits = Raise e ->
  e = AssertionError (missing_log (ppo_log_path key bits))
  \/ e = IndexError \/ e = ValueError.
Proof.
  unfold get_best_file_from_ppo. destruct (fsys !! _) as [lines|].
  - unfold_bind. destruct (ppo_lines lines init_best) eqn:H; [discriminate|].
    intros [= <-]. right. exact (ppo_lines_raises _ _ _ H).
  - intros [= <-]. left. reflexivity.
Qed.

Lemma get_best_file_from_mcts_raises (fsys : filesystem) (key : string) (bits : Z)
    (e : exn) :
  get_best_file_from_mcts fsys key bits = Raise e ->
  e = AssertionError (missing_log (mcts_log_path key bits))
  \/ e = IndexError \/ e = ValueError.
Proof.
  unfold get_best_file_from_mcts. destruct (fsys !! _) as [lines|].
  - unfold_bind. rewrite mcts_lines_ppo_lines.
    destruct (ppo_lines lines init_best) eqn:H; [discriminate|].
    intros [= <-]. right. exact (ppo_lines_raises _ _ _ H).
  - intros [= <-]. left. reflexivity.
Qed.

Lemma save_mult_file_raises (fsys : filesystem) (name : option string)
    (key : string) (e : exn) :
  save_mult_file fsys name key = Raise e ->
  e = TypeError \/ exists path : string, e = FileNotFoundError path.
Proof.
  unfold save_mult_file, join_name. unfold_bind.
  destruct name as [name|]; [|intros [= <-]; auto].
  destruct (fsys !! _); [discriminate|]. intros [= <-]. right. eexists. reflexivity.
Qed.

Lemma save_adder_file_raises (fsys : filesystem) (name : option string)
    (key : string) (bits : Z) (e : exn) :
  save_adder_file fsys name key bits = Raise e ->
  e = TypeError \/ exists path : string, e = FileNotFoundError path.
Proof.
  unfold save_adder_file, join_name. unfold_bind.
  destruct name as [name|]; [|intros [= <-]; auto].
  destruct (fsys !! _); [discriminate|]. intros [= <-]. right. eexists. reflexivity.
Qed.

Lemma body_uncaught (st st' : state) (e : exn) :
  body st = Uncaught e st' ->
  (0 <? i st) = false \/ is_Some (template_adder_name st) ->
  e = IndexError \/ e = ValueError \/ e = TypeError
  \/ exists path : string, e = FileNotFoundError path.
Proof.
  intros Hbody Hbound.
  assert (exists cmd : list string,
             ppo_cmd (i st) (template_adder_name st) = Ok cmd) as [cmd Hcmd].
  { unfold ppo_cmd. destruct Hbound as [->|[name ->]]; [|destruct (0 <? i st)];
      eexists; reflexivity. }
  revert Hbody. unfold body. step_state. rewrite Hcmd. step_state.
  destruct (capture_subprocess_output cmd (fs st)) as [[[] out1] fsys1];
    step_state; [|discriminate].
  destruct (get_best_file_from_ppo fsys1 (round_key (i st)) input_bit)
    as [[file1 line1]|e1] eqn:Hsel.
  2:{ apply get_best_file_from_ppo_raises in Hsel as [->|[->| ->]];
        [discriminate|intros [= <- _]; auto..]. }
  step_state.
  destruct (save_mult_file fsys1 file1 (round_key (i st)))
    as [[fsys2 template]|e2] eqn:Hsave.
  2:{ apply save_mult_file_raises in Hsave. intros [= <- _]. auto. }
  step_state.
  destruct (capture_subprocess_output _ fsys2) as [[[] out2] fsys3];
    step_state; [|discriminate].
  destruct (get_best_file_from_mcts fsys3 (round_key (i st)) (input_bit * 2))
    as [[file2 line2]|e3] eqn:Hsel2.
  2:{ apply get_best_file_from_mcts_raises in Hsel2 as [->|[->| ->]];
        [discriminate|intros [= <- _]; auto..]. }
  step_state.
  destruct (save_adder_file fsys3 file2 (round_key (i st)) (input_bit * 2))
    as [[fsys4 name]|e4] eqn:Hadd; [discriminate|].
  apply save_adder_file_raises in Hadd. intros [= <- _]. auto.
Qed.

Lemma for_range_crashed (ks : list Z) (st st' : state) (e : exn) :
  for_range ks st = (st', Crashed e) ->
  (forall k : Z, head ks = Some k -> (0 <? k) = false)
  \/ is_Some (template_adder_name st) ->
  e = IndexError \/ e = ValueError \/ e = TypeError
  \/ exists path : string, e = FileNotFoundError path.
Proof.
  revert st. induction ks as [|k ks IH]; intros st; cbn [for_range]; [discriminate|].
  intros Hrun Hbound.
  destruct (body (rebind k st)) as [st1|st1|e1 st1] eqn:Hbody.
  - apply (IH st1 Hrun). right.
    apply body_next in Hbody as (_ & _ & _ & _ & ->). eexists. reflexivity.
  - discriminate.
  - injection Hrun as _ <-. apply (body_uncaught _ _ _ Hbody).
    destruct Hbound as [Hfirst|Hbound]; [left; apply Hfirst; reflexivity|right; exact Hbound].
Qed.

(** Of the exceptions of the embedding, those that can leave [main]. *)
Lemma main_crashed (fsys : filesystem) (st : state) (e : exn) :
  main fsys = (st, Crashed e) ->
  e = IndexError \/ e = ValueError \/ e = TypeError
  \/ exists path : string, e = FileNotFoundError path.
Proof.
  unfold main.
  destruct (for_range (range total_times) (State fsys [] [] 0 None))
    as [st1 [|e1]] eqn:Hrun; [discriminate|].
  intros [= _ <-]. apply (for_range_crashed _ _ _ _ Hrun).
  left. rewrite range_total_times. intros k [= <-]. reflexivity.
Qed.

(** X4. [main] never ends with the [AssertionError] of a selector, which
    it always catches, nor with an unbound [template_adder_name]: a pass
    after the first is reached only when the pass before it came to its
    end, where the name is bound. *)
Theorem main_uncaught_exceptions (fsys : filesystem) (st : state) (e : exn) :
  main fsys = (st, Crashed e) ->
  e <> UnboundLocalError /\ forall msg : string, e <> AssertionError msg.
Proof.
  intros Hrun.
  destruct (main_crashed fsys st e Hrun) as [->|[->|[->|[path ->]]]];
    split; try discriminate; intros msg; discriminate.
Qed.


(** The two components of the running best are set together. *)
Lemma best_pair_together (lines : list string) (b b' : best) :
  ppo_lines lines b = Ok b' ->
  (best_verilog_file b = None /\ best_data_line b = None
   \/ exists id raw : string,
       best_verilog_file b = Some id /\ best_data_line b = Some raw) ->
  best_verilog_file b' = None /\ best_data_line b' = None
  \/ exists id raw : string,
      best_verilog_file b' = Some id /\ best_data_line b' = Some raw.
Proof.
  revert b. induction lines as [|line rest IH]; intros b; cbn [ppo_lines].
  - intros [= <-] H. exact H.
  - unfold_bind. unfold index, to_float.
    repeat match goal with
           | |- context [nth_error ?l ?k] =>
               destruct (nth_error l k); [|discriminate]
           | |- context [py_float ?p] =>
               destruct (py_float p); [|discriminate]
           end.
    destruct (_ <? _)%float; [|apply IH].
    destruct (nth_error _ 0) as [p0|]; [|discriminate].
    intros Hrest _. apply (IH _ Hrest). right. eexists _, _. split; reflexivity.
Qed.

(** What a pass that reaches the end of the body has done. *)
Lemma body_next_effects (st st' : state) :
  body st = Next st' ->
  exists (raw1 raw2 name2 : string) (fsys3 : filesystem) (lines : list string),
    flog st' = (flog st ++ [iteration_line (i st); ppo_line raw1; mcts_line raw2])%list
    /\ get_best_file_from_mcts fsys3 (round_key (i st)) (input_bit * 2)
       = Ok (Some name2, Some raw2)
    /\ fsys3 !! adder_source_path name2 = Some lines
    /\ fs st'
       = <[adder_dest_path (round_key (i st)) :=
             adder_selection (input_bit * 2)
               (lines_read (adder_source_path name2)
                  (adder_dest_path (round_key (i st))) lines)]> fsys3.
Proof.
  unfold body. step_state.
  destruct (ppo_cmd (i st) (template_adder_name st)) as [cmd|]; [|discriminate].
  step_state.
  destruct (capture_subprocess_output cmd (fs st)) as [[[] out1] fsys1];
    step_state; [|discriminate].
  destruct (get_best_file_from_ppo fsys1 (round_key (i st)) input_bit)
    as [[file1 line1]|[]] eqn:Hsel1; try discriminate.
  step_state.
  destruct (save_mult_file fsys1 file1 (round_key (i st)))
    as [[fsys2 template]|] eqn:Hsave; [|discriminate].
  step_state.
  destruct (capture_subprocess_output _ fsys2) as [[[] out2] fsys3];
    step_state; [|discriminate].
  destruct (get_best_file_from_mcts fsys3 (round_key (i st)) (input_bit * 2))
    as [[file2 line2]|[]] eqn:Hsel2; try discriminate.
  step_state.
  destruct (save_adder_file fsys3 file2 (round_key (i st)) (input_bit * 2))
    as [[fsys4 name]|] eqn:Hadd; [|discriminate].
  intros [= <-]. cbn [flog fs].
  (* a winner that is [None] would have stopped the extractors *)
  destruct file1 as [name1|]; [|discriminate Hsave].
  destruct file2 as [name2|]; [|discriminate Hadd].
  assert (exists raw1 : string, line1 = Some raw1) as [raw1 ->].
  { revert Hsel1. unfold get_best_file_from_ppo.
    destruct (fsys1 !! _) as [ls|]; [|discriminate]. unfold_bind.
    destruct (ppo_lines ls init_best) as [b|] eqn:Hb; [|discriminate].
    intros [= Hfile <-].
    destruct (best_pair_together ls init_best b Hb) as [[H1 H2]|[id [raw [H1 H2]]]];
      [left; split; reflexivity|congruence|eexists; exact H2]. }
  assert (exists raw2 : string, line2 = Some raw2) as [raw2 ->].
  { revert Hsel2. unfold get_best_file_from_mcts.
    destruct (fsys3 !! _) as [ls|]; [|discriminate]. unfold_bind.
    rewrite mcts_lines_ppo_lines.
    destruct (ppo_lines ls init_best) as [b|] eqn:Hb; [|discriminate].
    intros [= Hfile <-].
    destruct (best_pair_together ls init_best b Hb) as [[H1 H2]|[id [raw [H1 H2]]]];
      [left; split; reflexivity|congruence|eexists; exact H2]. }
  revert Hadd. unfold save_adder_file, join_name. unfold_bind.
  fold (adder_source_path name2). fold (adder_dest_path (round_key (i st))).
  destruct (fsys3 !! adder_source_path name2) as [lines|] eqn:Hsrc; [|discriminate].
  rewrite (read_after_open _ _ _ _ Hsrc), insert_insert_eq.
  rewrite (adder_lines_selection (input_bit * 2) _ [] 0) by (left; reflexivity).
  intros [= <- _]. exists raw1, raw2, name2, fsys3, lines.
  cbn [fmt default]. rewrite <- !app_assoc. repeat split; try assumption.
Qed.

(** X5. A pass that reaches the end of the body has written three
    entries to the run log, the line of the iteration, the PPO entry and
    the MCTS entry, and its last effect on the file system is the adder
    template of its key: the selection, with the bound [2 * input_bit],
    from the design that the stage-2 log names as its winner. *)
Theorem round_effects (st st' : state) :
  body st = Next st' ->
  exists (raw1 raw2 name2 : string) (fsys3 : filesystem) (lines : list string),
    flog st' = (flog st ++ [iteration_line (i st); ppo_line raw1; mcts_line raw2])%list
    /\ get_best_file_from_mcts fsys3 (round_key (i st)) (input_bit * 2)
       = Ok (Some name2, Some raw2)
    /\ fsys3 !! adder_source_path name2 = Some lines
    /\ fs st'
       = <[adder_dest_path (round_key (i st)) :=
             adder_selection (input_bit * 2)
               (lines_read (adder_source_path name2)
                  (adder_dest_path (round_key (i st))) lines)]> fsys3.
Proof. exact (body_next_effects st st'). Qed.

(** X6. A run of [main] without failure writes ten entries to the run
    log: for each of the rounds 0, 1 and 2 in turn the line of the
    iteration, one PPO entry and one MCTS entry, and at the end the line
    of the total time. *)
Theorem failure_free_run_log (fsys : filesystem) (st' : state) :
  completes (range total_times) (State fsys [] [] 0 None) = Some st' ->
  exists p0 m0 p1 m1 p2 m2 : string,
    main fsys = (write st' total_line, Finished)
    /\ flog (write st' total_line)
       = [iteration_line 0; ppo_line p0; mcts_line m0;
          iteration_line 1; ppo_line p1; mcts_line m1;
          iteration_line 2; ppo_line p2; mcts_line m2;
          total_line].
Proof.
  intros Hrun. pose proof (completes_for_range _ _ _ Hrun) as Hfor.
  rewrite range_total_times in Hrun. cbn [completes] in Hrun.
  destruct (body (rebind 0 _)) as [st1| |] eqn:Hb0; try discriminate.
  destruct (body (rebind 1 st1)) as [st2| |] eqn:Hb1; try discriminate.
  destruct (body (rebind 2 st2)) as [st3| |] eqn:Hb2; try discriminate.
  injection Hrun as ->.
  apply body_next_effects in Hb0 as (p0 & m0 & _ & _ & _ & Hlog0 & _).
  apply body_next_effects in Hb1 as (p1 & m1 & _ & _ & _ & Hlog1 & _).
  apply body_next_effects in Hb2 as (p2 & m2 & _ & _ & _ & Hlog2 & _).
  unfold rebind in *. cbn [fs flog cmds i template_adder_name] in *.
  exists p0, m0, p1, m1, p2, m2. split; [unfold main; rewrite Hfor; reflexivity|].
  unfold write. cbn [flog]. rewrite Hlog2, Hlog1, Hlog0. reflexivity.
Qed.


(** ** Further properties of the extractors *)

(** X7. Extracting the adder template twice from the same source, round
    key and bound leaves the file system of the first extraction, and
    returns the same name, a function of the key alone. *)
Theorem save_adder_file_idempotent (fsys fsys' : filesystem)
    (name : option string) (key template : string) (bits : Z) :
  save_adder_file fsys name key bits = Ok (fsys', template) ->
  template = adder_template_name key
  /\ save_adder_file fsys' name key bits = Ok (fsys', template).
Proof.
  destruct name as [name|]; [|discriminate].
  unfold save_adder_file, join_name. unfold_bind.
  fold (adder_source_path name). fold (adder_dest_path key).
  destruct (fsys !! adder_source_path name) as [lines|] eqn:H; [|discriminate].
  rewrite (read_after_open _ _ _ _ H), insert_insert_eq.
  intros [= <- <-]. split; [reflexivity|].
  set (written := adder_lines bits (lines_read _ _ lines) 0 false).
  assert (exists lines' : list string,
             (<[adder_dest_path key := written]> fsys : filesystem)
               !! adder_source_path name = Some lines'
             /\ adder_lines bits
                  (lines_read (adder_source_path name) (adder_dest_path key) lines')
                  0 false
                = written) as (lines' & H' & Hsame).
  { subst written. unfold lines_read. rewrite lookup_insert.
    destruct (decide (adder_dest_path key = adder_source_path name)) as [Heq|Hne].
    - rewrite bool_decide_eq_true_2 by congruence. eexists. split; reflexivity.
    - rewrite bool_decide_eq_false_2 by congruence. exists lines. split; [exact H|reflexivity]. }
  rewrite H', (read_after_open _ _ _ _ H'), Hsame, !insert_insert_eq. reflexivity.
Qed.

(** The paths of the extractors, spelled out. *)
Lemma mult_dest_path_eq (key : string) :
  mult_dest_path key
  = "/content/ArithmeticTree/multiplier_template/mult_template_" ++ key ++ ".v".
Proof. reflexivity. Qed.

Lemma adder_dest_path_eq (key : string) :
  adder_dest_path key
  = "/content/ArithmeticTree/adder_template/adder_template_" ++ key ++ ".v".
Proof. reflexivity. Qed.

Lemma mult_source_path_relative (name : string) :
  startswith "/" name = false ->
  mult_source_path name = "/content/ArithmeticTree/run_verilog_mult_mid/" ++ name.
Proof.
  intros H. unfold mult_source_path, path_join. cbn [fold_left].
  unfold join2 at 1. rewrite H. reflexivity.
Qed.

Lemma adder_source_path_relative (name : string) :
  startswith "/" name = false ->
  adder_source_path name = "/content/ArithmeticTree/run_verilog_mult_add_mid/" ++ name.
Proof.
  intros H. unfold adder_source_path, path_join. cbn [fold_left].
  unfold join2 at 1. rewrite H. reflexivity.
Qed.

Lemma no_slash_relative (name : string) :
  char_in "/" name = false -> startswith "/" name = false.
Proof.
  destruct name as [|c r]; [reflexivity|]. cbn [char_in].
  intros [Hc _]%orb_false_elim. unfold startswith. cbn [String.prefix].
  destruct (ascii_dec "/" c) as [<-|]; [discriminate Hc|reflexivity].
Qed.

(** X9. When the name of the winning design is a plain file name, with no
    slash in it, the design lies in the directory of the designs and the
    template in the directory of the templates, so that the source of an
    extractor is not its destination: [save_mult_file] writes the lines
    of the design before the first line that starts with the marker,
    [save_adder_file] writes the selection from the lines of the design,
    and both leave the design itself as it was. *)
Theorem extractors_on_plain_name (fsys : filesystem) (name key : string)
    (bits : Z) (lines : list string) :
  char_in "/" name = false ->
  (fsys !! mult_source_path name = Some lines ->
   exists fsys' : filesystem,
     save_mult_file fsys (Some name) key = Ok (fsys', mult_template_name key)
     /\ fsys' !! mult_dest_path key = Some (mult_lines lines)
     /\ fsys' !! mult_source_path name = Some lines)
  /\ (fsys !! adder_source_path name = Some lines ->
      exists fsys' : filesystem,
        save_adder_file fsys (Some name) key bits = Ok (fsys', adder_template_name key)
        /\ fsys' !! adder_dest_path key = Some (adder_selection bits lines)
        /\ fsys' !! adder_source_path name = Some lines).
Proof.
  intros Hplain. pose proof (no_slash_relative name Hplain) as Hrel.
  split; intros H.
  - assert (mult_source_path name <> mult_dest_path key) as Hne.
    { rewrite (mult_source_path_relative name Hrel), mult_dest_path_eq. discriminate. }
    eexists. unfold save_mult_file, join_name. unfold_bind.
    fold (mult_source_path name). fold (mult_dest_path key). rewrite H.
    rewrite (read_after_open _ _ _ _ H), insert_insert_eq. unfold lines_read.
    rewrite bool_decide_eq_false_2 by exact Hne.
    split; [reflexivity|]. split; [apply lookup_insert_eq|].
    rewrite lookup_insert_ne by congruence. exact H.
  - assert (adder_source_path name <> adder_dest_path key) as Hne.
    { rewrite (adder_source_path_relative name Hrel), adder_dest_path_eq. discriminate. }
    eexists. unfold save_adder_file, join_name. unfold_bind.
    fold (adder_source_path name). fold (adder_dest_path key). rewrite H.
    rewrite (read_after_open _ _ _ _ H), insert_insert_eq. unfold lines_read.
    rewrite bool_decide_eq_false_2 by exact Hne.
    rewrite (adder_lines_selection bits _ [] 0) by (left; reflexivity).
    split; [reflexivity|]. split; [apply lookup_insert_eq|].
    rewrite lookup_insert_ne by congruence. exact H.
Qed.

(** ** The names of the artifacts *)

Lemma append_inj_l (a x y : string) : a ++ x = a ++ y -> x = y.
Proof.
  induction a as [|c a IH]; cbn [String.append]; [auto|].
  intros [= H]. exact (IH H).
Qed.

Lemma length_append (x y : string) :
  String.length (x ++ y) = (String.length x + String.length y)%nat.
Proof.
  induction x as [|c x IH]; simpl; [reflexivity|]. f_equal. exact IH.
Qed.

Lemma append_inj_r (x y s : string) : x ++ s = y ++ s -> x = y.
Proof.
  revert y. induction x as [|c x IH]; intros [|d y]; cbn [String.append]; intros H.
  - reflexivity.
  - apply (f_equal String.length) in H.
    rewrite !length_append in H. simpl in H. lia.
  - apply (f_equal String.length) in H.
    rewrite !length_append in H. simpl in H. lia.
  - injection H as -> H. rewrite (IH y H). reflexivity.
Qed.

Lemma to_int_not_nil (n : Z) :
  Z.to_int n <> Decimal.Pos Decimal.Nil /\ Z.to_int n <> Decimal.Neg Decimal.Nil.
Proof.
  destruct n as [|p|p]; cbn; split; try discriminate;
    intros [= H]; exact (DecimalPos.Unsigned.to_uint_nonnil p H).
Qed.

(** [str] is injective on the integers. *)
Lemma str_int_inj (n m : Z) : str_int n = str_int m -> n = m.
Proof.
  unfold str_int. intros H. apply (f_equal NilZero.int_of_string) in H.
  destruct (to_int_not_nil n) as [Hn1 Hn2], (to_int_not_nil m) as [Hm1 Hm2].
  rewrite !NilZero.isi in H by assumption. injection H as H.
  apply (f_equal Z.of_int) in H. rewrite !DecimalZ.of_to in H. exact H.
Qed.

Lemma round_key_inj (n m : Z) : round_key n = round_key m -> n = m.
Proof.
  unfold round_key. intros H. apply append_inj_l, append_inj_l in H.
  exact (str_int_inj n m H).
Qed.

(** X10. The artifacts of different rounds have different paths: for two
    rounds with different indices the stage-1 logs, the stage-2 logs, the
    multiplier templates and the adder templates are pairwise distinct
    files, so that no round reads the log or overwrites the template of
    another. *)
Theorem round_artifacts_distinct (n m bits : Z) :
  n <> m ->
  ppo_log_path (round_key n) bits <> ppo_log_path (round_key m) bits
  /\ mcts_log_path (round_key n) bits <> mcts_log_path (round_key m) bits
  /\ mult_dest_path (round_key n) <> mult_dest_path (round_key m)
  /\ adder_dest_path (round_key n) <> adder_dest_path (round_key m).
Proof.
  intros Hne. repeat split; intros H; apply Hne, round_key_inj.
  - change (ppo_log_path (round_key n) bits)
      with ("/content/ArithmeticTree/mult_logs/mult_"
            ++ str_int bits ++ "b_" ++ round_key n ++ ".log") in H.
    change (ppo_log_path (round_key m) bits)
      with ("/content/ArithmeticTree/mult_logs/mult_"
            ++ str_int bits ++ "b_" ++ round_key m ++ ".log") in H.
    apply append_inj_l, append_inj_l, append_inj_l, append_inj_r in H. exact H.
  - change (mcts_log_path (round_key n) bits)
      with ("/content/ArithmeticTree/mcts_mult_adder/mcts_mult_adder_"
            ++ str_int bits ++ "b_openroad_" ++ round_key n ++ ".log") in H.
    change (mcts_log_path (round_key m) bits)
      with ("/content/ArithmeticTree/mcts_mult_adder/mcts_mult_adder_"
            ++ str_int bits ++ "b_openroad_" ++ round_key m ++ ".log") in H.
    apply append_inj_l, append_inj_l, append_inj_l, append_inj_r in H. exact H.
  - rewrite !mult_dest_path_eq in H. apply append_inj_l, append_inj_r in H. exact H.
  - rewrite !adder_dest_path_eq in H. apply append_inj_l, append_inj_r in H. exact H.
Qed.


(** ** What the adder extractor keeps *)

Lemma adder_lines_sublist (bits : Z) (lines : list string) (cnt : Z) (found : bool) :
  adder_lines bits lines cnt found `sublist_of` lines.
Proof.
  revert cnt found. induction lines as [|line rest IH]; intros cnt found;
    cbn [adder_lines]; [constructor|].
  destruct (startswith "//" line); cbn [negb].
  - destruct (char_in "2" line); [apply sublist_cons, IH|].
    destruct (cnt <? bits); [apply sublist_skip|apply sublist_cons]; apply IH.
  - destruct (if startswith ADDER_MARKER line then true else found);
      [apply sublist_skip|apply sublist_cons]; apply IH.
Qed.

Lemma adder_lines_comments (bits : Z) (lines : list string) (cnt : Z) (found : bool) :
  Forall (fun line => is_comment line = true -> char_in "2" line = false)
    (adder_lines bits lines cnt found)
  /\ Z.of_nat (length (comment_lines (adder_lines bits lines cnt found)))
     <= Z.max (bits - cnt) 0.
Proof.
  revert cnt found. induction lines as [|line rest IH]; intros cnt found;
    cbn [adder_lines]; [split; [constructor|cbn; lia]|].
  unfold comment_lines, is_comment in *.
  destruct (startswith "//" line) eqn:Hc; cbn [negb].
  - destruct (char_in "2" line) eqn:H2; [apply IH|].
    destruct (cnt <? bits) eqn:Hlt; [|apply IH].
    apply Z.ltb_lt in Hlt. destruct (IH (cnt + 1) found) as [Hall Hlen].
    split; [constructor; [intros _; exact H2|exact Hall]|].
    cbn [List.filter]. rewrite Hc. cbn [length]. lia.
  - destruct (if startswith ADDER_MARKER line then true else found); [|apply IH].
    destruct (IH cnt true) as [Hall Hlen].
    split; [constructor; [congruence|exact Hall]|].
    cbn [List.filter]. rewrite Hc. exact Hlen.
Qed.

(** X11. The adder extractor only copies: the lines it writes are lines
    of the source, in their order; no comment line it writes holds a
    ['2']; and it writes at most [bits] comment lines, none at all when
    [bits] is zero or negative. *)
Theorem adder_template_content (bits : Z) (lines : list string) :
  adder_lines bits lines 0 false `sublist_of` lines
  /\ Forall (fun line => is_comment line = true -> char_in "2" line = false)
       (adder_lines bits lines 0 false)
  /\ Z.of_nat (length (comment_lines (adder_lines bits lines 0 false)))
     <= Z.max bits 0.
Proof.
  split; [apply adder_lines_sublist|].
  destruct (adder_lines_comments bits lines 0 false) as [Hall Hlen].
  split; [exact Hall|]. rewrite Z.sub_0_r in Hlen. exact Hlen.
Qed.

Lemma adder_lines_found (bits : Z) (lines : list string) (cnt : Z) :
  code_lines (adder_lines bits lines cnt true) = code_lines lines.
Proof.
  revert cnt. induction lines as [|line rest IH]; intros cnt; [reflexivity|].
  cbn [adder_lines]. unfold code_lines, is_comment in *.
  destruct (startswith "//" line) eqn:Hc; cbn [negb].
  - cbn [List.filter]. rewrite Hc. cbn [negb].
    destruct (char_in "2" line); [apply IH|].
    destruct (cnt <? bits); [|apply IH].
    cbn [List.filter]. rewrite Hc. cbn [negb]. apply IH.
  - replace (if startswith ADDER_MARKER line then true else true) with true
      by (destruct (startswith ADDER_MARKER line); reflexivity).
    cbn [List.filter]. rewrite Hc. cbn [negb]. f_equal. apply IH.
Qed.

Lemma extractors_split (bits : Z) (lines : list string) (cnt : Z) :
  (code_lines (mult_lines lines) ++ code_lines (adder_lines bits lines cnt false))%list
  = code_lines lines.
Proof.
  revert cnt. induction lines as [|line rest IH]; intros cnt; [reflexivity|].
  cbn [adder_lines mult_lines].
  destruct (startswith "//" line) eqn:Hc; cbn [negb].
  - assert (startswith ADDER_MARKER line = false) as ->.
    { destruct (startswith ADDER_MARKER line) eqn:Hm; [|reflexivity].
      apply marker_not_comment in Hm. congruence. }
    cbn [negb]. unfold code_lines, is_comment in *. cbn [List.filter].
    rewrite Hc. cbn [negb].
    destruct (char_in "2" line); [apply IH|].
    destruct (cnt <? bits); [|apply IH].
    cbn [List.filter]. rewrite Hc. cbn [negb]. apply IH.
  - destruct (startswith ADDER_MARKER line) eqn:Hm; cbn [negb].
    + cbn [app]. change (code_lines (line :: adder_lines bits rest cnt true)
                         = code_lines (line :: rest)).
      unfold code_lines, is_comment. cbn [List.filter]. rewrite Hc. cbn [negb].
      f_equal. apply adder_lines_found.
    + unfold code_lines, is_comment in *. cbn [List.filter]. rewrite Hc. cbn [negb app].
      f_equal. apply IH.
Qed.

(** X12. Applied to the same design, the two extractors share out the
    lines that are no comments: those before the first line that starts
    with the marker go to the multiplier template, that line and those
    after it go to the adder template, and none is lost or copied
    twice. *)
Theorem extractors_partition_code (bits : Z) (lines : list string) :
  (code_lines (mult_lines lines) ++ code_lines (adder_lines bits lines 0 false))%list
  = code_lines lines.
Proof. exact (extractors_split bits lines 0). Qed.


(** ** What the selectors return *)

Lemma rstrip_idempotent (s : string) : rstrip (rstrip s) = rstrip s.
Proof.
  induction s as [|c r IH]; [reflexivity|]. cbn [rstrip].
  destruct (is_space c && is_empty (rstrip r)) eqn:H; [reflexivity|].
  cbn [rstrip]. rewrite IH, H. reflexivity.
Qed.

Lemma lstrip_head (s : string) :
  lstrip s = EmptyString
  \/ exists (c : ascii) (r : string), lstrip s = String c r /\ is_space c = false.
Proof.
  induction s as [|c r IH]; [left; reflexivity|]. cbn [lstrip].
  destruct (is_space c) eqn:H; [exact IH|].
  right. exists c, r. split; [reflexivity|exact H].
Qed.

Lemma strip_idempotent (s : string) : strip (strip s) = strip s.
Proof.
  unfold strip. destruct (lstrip_head s) as [->|(c & r & -> & Hc)]; [reflexivity|].
  cbn [rstrip]. rewrite Hc. cbn [andb lstrip]. rewrite Hc.
  cbn [rstrip]. rewrite Hc, rstrip_idempotent. reflexivity.
Qed.

Lemma is_blank_lstrip (s : string) : is_blank s = true -> lstrip s = EmptyString.
Proof.
  induction s as [|c r IH]; [reflexivity|]. cbn [is_blank lstrip].
  intros [-> H]%andb_prop. exact (IH H).
Qed.

Lemma split_nonempty (sep : ascii) (s : string) : split sep s <> [].
Proof.
  destruct s as [|c r]; cbn [split]; [discriminate|].
  destruct (Ascii.eqb c sep); [discriminate|]. destruct (split sep r); discriminate.
Qed.

(** The first field of a split holds no separator, and the string is
    that field alone or that field, a separator and the rest. *)
Lemma split_first (sep : ascii) (s : string) :
  exists (p0 : string) (ps : list string),
    split sep s = p0 :: ps
    /\ char_in sep p0 = false
    /\ (ps = [] -> s = p0)
    /\ (ps <> [] -> exists r : string, s = p0 ++ String sep r).
Proof.
  induction s as [|c r (p0 & ps & Hsplit & Hin & Hone & Hmore)]; cbn [split].
  - exists EmptyString, [].
    split; [reflexivity|]. split; [reflexivity|]. split; [reflexivity|congruence].
  - destruct (Ascii.eqb c sep) eqn:Hc.
    + apply Ascii.eqb_eq in Hc as ->. exists EmptyString, (split sep r).
      split; [reflexivity|]. split; [reflexivity|]. split.
      * intros H. destruct (split_nonempty sep r H).
      * intros _. exists r. reflexivity.
    + rewrite Hsplit. exists (String c p0), ps. cbn [char_in]. rewrite Hc, Hin.
      split; [reflexivity|]. split; [reflexivity|]. split.
      * intros H. rewrite (Hone H). reflexivity.
      * intros H. destruct (Hmore H) as [r' ->]. exists r'. reflexivity.
Qed.

(** What every record chosen by the loop satisfies. *)
Lemma ppo_lines_chosen (lines : list string) (b b' : best) (P : string -> string -> Prop) :
  (forall (line p0 : string) (ps : list string),
      split (ascii_of_nat 9) (strip line) = p0 :: ps -> (4 <= length ps)%nat ->
      P p0 (strip line)) ->
  ppo_lines lines b = Ok b' ->
  (forall id raw : string,
      best_verilog_file b = Some id -> best_data_line b = Some raw -> P id raw) ->
  forall id raw : string,
    best_verilog_file b' = Some id -> best_data_line b' = Some raw -> P id raw.
Proof.
  intros HP. revert b. induction lines as [|line rest IH]; intros b; cbn [ppo_lines].
  - intros [= <-] H. exact H.
  - unfold_bind. unfold index, to_float.
    destruct (split (ascii_of_nat 9) (strip line)) as [|p0 [|p1 [|p2 [|p3 [|p4 ps]]]]] eqn:E;
      cbn [nth_error]; try discriminate;
      repeat match goal with
             | |- context [py_float ?p] => destruct (py_float p); [|discriminate]
             end; try discriminate.
    destruct (_ <? _)%float; [|apply IH].
    intros Hrest _. apply (IH _ Hrest). cbn [best_verilog_file best_data_line].
    intros id raw [= <-] [= <-]. apply (HP line p0 _ E). cbn [length]. lia.
Qed.

Lemma selected_record_shape (lines : list string) (b : best) (id raw : string) :
  ppo_lines lines init_best = Ok b ->
  best_verilog_file b = Some id -> best_data_line b = Some raw ->
  strip raw = raw /\ char_in (ascii_of_nat 9) id = false
  /\ exists rest : string, raw = id ++ TAB ++ rest.
Proof.
  intros Hrun. apply (ppo_lines_chosen lines init_best b
                        (fun id raw => strip raw = raw
                                       /\ char_in (ascii_of_nat 9) id = false
                                       /\ exists rest : string, raw = id ++ TAB ++ rest));
    [|exact Hrun|discriminate].
  intros line p0 ps E Hlen. split; [apply strip_idempotent|].
  destruct (split_first (ascii_of_nat 9) (strip line)) as (q0 & qs & Hsplit & Hin & _ & Hmore).
  rewrite E in Hsplit. injection Hsplit as <- <-. split; [exact Hin|].
  apply Hmore. destruct ps; [cbn in Hlen; lia|discriminate].
Qed.

(** X13. Whatever the log, a record that a selector returns is trimmed,
    so that trimming it again changes nothing, and it starts with the
    returned identifier followed by a tab; the identifier holds no
    tab. *)
Theorem selected_record_starts_with_id (fsys : filesystem) (key : string)
    (bits : Z) (id raw : string) :
  get_best_file_from_ppo fsys key bits = Ok (Some id, Some raw)
  \/ get_best_file_from_mcts fsys key bits = Ok (Some id, Some raw) ->
  strip raw = raw /\ char_in (ascii_of_nat 9) id = false
  /\ exists rest : string, raw = id ++ TAB ++ rest.
Proof.
  intros [H|H]; revert H.
  - unfold get_best_file_from_ppo. destruct (fsys !! _) as [lines|]; [|discriminate].
    unfold_bind. destruct (ppo_lines lines init_best) as [b|] eqn:Hrun; [|discriminate].
    intros [= Hid Hraw]. exact (selected_record_shape lines b id raw Hrun Hid Hraw).
  - unfold get_best_file_from_mcts. destruct (fsys !! _) as [lines|]; [|discriminate].
    unfold_bind. rewrite mcts_lines_ppo_lines.
    destruct (ppo_lines lines init_best) as [b|] eqn:Hrun; [|discriminate].
    intros [= Hid Hraw]. exact (selected_record_shape lines b id raw Hrun Hid Hraw).
Qed.

Lemma ppo_lines_blank (pre rest : list string) (line : string) (b : best) :
  Forall (fun l => well_formed l = true) pre ->
  is_blank line = true ->
  ppo_lines (pre ++ line :: rest) b = Raise IndexError.
Proof.
  intros Hwf Hblank. revert b. induction Hwf as [|l pre Hl _ IH]; intros b.
  - cbn [app ppo_lines]. unfold strip. rewrite (is_blank_lstrip line Hblank).
    reflexivity.
  - destruct (ppo_lines_well_formed l Hl) as (id & s & _ & _ & Hstep).
    change ((l :: pre) ++ line :: rest)%list with (l :: (pre ++ line :: rest))%list.
    rewrite Hstep. destruct (s <? best_score b)%float; apply IH.
Qed.

(** X14. A line of white space only, such as an empty last line, stops
    the selection with [IndexError], also after well-formed records from
    which a winner was already chosen. *)
Theorem blank_line_raises (fsys : filesystem) (key : string) (bits : Z)
    (pre rest : list string) (line : string) :
  Forall (fun l => well_formed l = true) pre ->
  is_blank line = true ->
  (fsys !! ppo_log_path key bits = Some (pre ++ line :: rest)%list ->
   get_best_file_from_ppo fsys key bits = Raise IndexError)
  /\ (fsys !! mcts_log_path key bits = Some (pre ++ line :: rest)%list ->
      get_best_file_from_mcts fsys key bits = Raise IndexError).
Proof.
  intros Hwf Hblank. split; intros Hlog.
  - unfold get_best_file_from_ppo. rewrite Hlog.
    rewrite (ppo_lines_blank pre rest line init_best Hwf Hblank). reflexivity.
  - unfold get_best_file_from_mcts. rewrite Hlog, mcts_lines_ppo_lines.
    rewrite (ppo_lines_blank pre rest line init_best Hwf Hblank). reflexivity.
Qed.


Lemma ppo_lines_strip (lines : list string) (b : best) :
  ppo_lines (map strip lines) b = ppo_lines lines b.
Proof.
  revert b. induction lines as [|line rest IH]; intros b; [reflexivity|].
  cbn [map ppo_lines]. rewrite strip_idempotent. unfold_bind.
  repeat match goal with
         | |- context [index ?p ?k] => destruct (index p k); [|reflexivity]
         | |- context [to_float ?p] => destruct (to_float p); [|reflexivity]
         end.
  destruct (_ <? _)%float; [|apply IH].
  destruct (index _ 0); [apply IH|reflexivity].
Qed.

(** X15. White space around the records does not count: two logs whose
    lines agree once trimmed, as a log with other line ends or with
    blanks after the last field, give the same outcome in either
    selector. *)
Theorem selectors_ignore_surrounding_space (fs1 fs2 : filesystem)
    (key1 key2 : string) (bits1 bits2 : Z) (lines1 lines2 : list string) :
  map strip lines1 = map strip lines2 ->
  (fs1 !! ppo_log_path key1 bits1 = Some lines1 ->
   fs2 !! ppo_log_path key2 bits2 = Some lines2 ->
   get_best_file_from_ppo fs1 key1 bits1 = get_best_file_from_ppo fs2 key2 bits2)
  /\ (fs1 !! mcts_log_path key1 bits1 = Some lines1 ->
      fs2 !! mcts_log_path key2 bits2 = Some lines2 ->
      get_best_file_from_mcts fs1 key1 bits1 = get_best_file_from_mcts fs2 key2 bits2).
Proof.
  intros Heq. split; intros H1 H2.
  - unfold get_best_file_from_ppo. rewrite H1, H2.
    rewrite <- (ppo_lines_strip lines1), <- (ppo_lines_strip lines2), Heq. reflexivity.
  - unfold get_best_file_from_mcts. rewrite H1, H2, !mcts_lines_ppo_lines.
    rewrite <- (ppo_lines_strip lines1), <- (ppo_lines_strip lines2), Heq. reflexivity.
Qed.

Lemma adder_lines_no_marker (bits : Z) (lines : list string) (cnt : Z) :
  Forall (fun line => startswith ADDER_MARKER line = false) lines ->
  code_lines (adder_lines bits lines cnt false) = [].
Proof.
  intros Hall. revert cnt. induction Hall as [|line rest Hm _ IH]; intros cnt;
    [reflexivity|].
  cbn [adder_lines]. rewrite Hm. unfold code_lines, is_comment in *.
  destruct (startswith "//" line) eqn:Hc; cbn [negb]; [|apply IH].
  destruct (char_in "2" line); [apply IH|].
  destruct (cnt <? bits); [|apply IH].
  cbn [List.filter]. rewrite Hc. cbn [negb]. apply IH.
Qed.

(** X16. From a design in which no line starts with the marker, the
    multiplier extractor copies every line and the adder extractor
    copies comment lines only: its template holds no line of code. *)
Theorem design_without_marker (bits : Z) (lines : list string) :
  Forall (fun line => startswith ADDER_MARKER line = false) lines ->
  mult_lines lines = lines
  /\ code_lines (adder_lines bits lines 0 false) = [].
Proof.
  intros Hall. split; [|exact (adder_lines_no_marker bits lines 0 Hall)].
  induction Hall as [|line rest Hm _ IH]; [reflexivity|].
  cbn [mult_lines]. rewrite Hm. cbn [negb]. rewrite IH. reflexivity.
Qed.


(** ** The commands of a run *)

Lemma of_round_inj (j k : Z) (cmd : list string) :
  of_round j cmd -> of_round k cmd -> j = k.
Proof.
  intros [[Hs1 Hk1]|[Hs1 Hk1]] [[Hs2 Hk2]|[Hs2 Hk2]].
  - rewrite Hk1 in Hk2. injection Hk2 as H. exact (round_key_inj j k H).
  - rewrite Hs1 in Hs2. discriminate.
  - rewrite Hs1 in Hs2. discriminate.
  - rewrite Hk1 in Hk2. injection Hk2 as H. exact (round_key_inj j k H).
Qed.

Lemma ppo_cmd_of_round (k : Z) (template : option string) (cmd : list string) :
  ppo_cmd k template = Ok cmd -> of_round k cmd.
Proof.
  unfold ppo_cmd. destruct (0 <? k); [destruct template|];
    intros [= <-]; left; split; reflexivity.
Qed.

Lemma ppo_cmd_script (k : Z) (template : option string) (cmd : list string) :
  ppo_cmd k template = Ok cmd ->
  nth_error cmd 1 = Some (path_join BASE_DIR ["PPO2_mult.py"]).
Proof.
  unfold ppo_cmd. destruct (0 <? k); [destruct template|];
    intros [= <-]; reflexivity.
Qed.

Lemma mcts_cmd_of_round (k : Z) (template : string) : of_round k (mcts_cmd k template).
Proof. right. split; reflexivity. Qed.

(** The commands that one pass adds, however it ends. *)
Lemma body_cmds (st : state) :
  exists added : list (list string),
    cmds (state_of (body st)) = (cmds st ++ added)%list
    /\ NoDup added /\ Forall (of_round (i st)) added.
Proof.
  unfold body. step_state.
  destruct (ppo_cmd (i st) (template_adder_name st)) as [cmd|] eqn:Hcmd.
  2:{ exists []. rewrite app_nil_r. repeat split; constructor. }
  pose proof (ppo_cmd_script _ _ _ Hcmd) as Hscript.
  apply ppo_cmd_of_round in Hcmd.
  assert (NoDup [cmd] /\ Forall (of_round (i st)) [cmd]) as Hone.
  { split; [apply NoDup_singleton|constructor; [exact Hcmd|constructor]]. }
  step_state.
  destruct (capture_subprocess_output cmd (fs st)) as [[[] out1] fsys1];
    step_state; [|exists [cmd]; split; [reflexivity|exact Hone]].
  destruct (get_best_file_from_ppo fsys1 (round_key (i st)) input_bit)
    as [[file1 line1]|[]]; step_state;
    try (exists [cmd]; split; [reflexivity|exact Hone]).
  destruct (save_mult_file fsys1 file1 (round_key (i st)))
    as [[fsys2 template]|]; step_state;
    [|exists [cmd]; split; [reflexivity|exact Hone]].
  assert (NoDup [cmd; mcts_cmd (i st) template]
          /\ Forall (of_round (i st)) [cmd; mcts_cmd (i st) template]) as Htwo.
  { split; [|constructor; [exact Hcmd|constructor; [apply mcts_cmd_of_round|constructor]]].
    apply NoDup_cons. split; [|apply NoDup_singleton].
    intros ->%list_elem_of_singleton. unfold mcts_cmd in Hscript.
    cbn [nth_error app] in Hscript. injection Hscript as Hscript.
    vm_compute in Hscript. discriminate Hscript. }
  assert (forall (x : list (list string)) (c m : list string),
             ((x ++ [c]) ++ [m] = x ++ [c; m])%list) as Happ
    by (intros; rewrite <- app_assoc; reflexivity).
  destruct (capture_subprocess_output _ fsys2) as [[[] out2] fsys3];
    step_state; [|exists [cmd; mcts_cmd (i st) template]; split; [apply Happ|exact Htwo]].
  destruct (get_best_file_from_mcts fsys3 (round_key (i st)) (input_bit * 2))
    as [[file2 line2]|[]]; step_state;
    try (exists [cmd; mcts_cmd (i st) template]; split; [apply Happ|exact Htwo]).
  destruct (save_adder_file fsys3 file2 (round_key (i st)) (input_bit * 2))
    as [[fsys4 name]|]; step_state;
    exists [cmd; mcts_cmd (i st) template]; (split; [apply Happ|exact Htwo]).
Qed.

Lemma for_range_cmds (ks : list Z) (st : state) (lo : Z) :
  increasing_from lo ks ->
  NoDup (cmds st) ->
  Forall (fun cmd => exists j : Z, j < lo /\ of_round j cmd) (cmds st) ->
  NoDup (cmds (for_range ks st).1).
Proof.
  revert st lo. induction ks as [|k ks IH]; intros st lo Hinc Hnodup Hold;
    cbn [for_range]; [exact Hnodup|].
  destruct Hinc as [Hlo Hinc].
  destruct (body_cmds (rebind k st)) as (added & Hcmds & Hnew & Hround).
  cbn [rebind cmds i] in Hcmds, Hround.
  assert (NoDup (cmds st ++ added)) as Hall.
  { apply NoDup_app. split; [exact Hnodup|]. split; [|exact Hnew].
    intros cmd Hin1 Hin2.
    apply (proj1 (Forall_forall _ _) Hold) in Hin1 as (j & Hj & Hcj).
    apply (proj1 (Forall_forall _ _) Hround) in Hin2.
    pose proof (of_round_inj j k cmd Hcj Hin2). lia. }
  destruct (body (rebind k st)) as [st1|st1|e st1]; cbn [state_of] in Hcmds;
    cbn [fst]; try (rewrite Hcmds; exact Hall).
  apply (IH st1 (k + 1) Hinc); rewrite Hcmds; [exact Hall|].
  apply Forall_app. split.
  - eapply Forall_impl; [exact Hold|]. intros cmd (j & Hj & Hcj). exists j.
    split; [lia|exact Hcj].
  - eapply Forall_impl; [exact Hround|]. intros cmd Hck. exists k. split; [lia|exact Hck].
Qed.

(** X17. [main] never runs the same command line twice, whether the jobs
    succeed or fail: a failed job is not tried again, and every stage of
    every round is run at most once. *)
Theorem main_runs_no_command_twice (fsys : filesystem) :
  NoDup (cmds (main fsys).1).
Proof.
  unfold main.
  pose proof (for_range_cmds (range total_times) (State fsys [] [] 0 None) 0) as H.
  destruct (for_range (range total_times) (State fsys [] [] 0 None)) as [st [|e]];
    cbn [fst write cmds] in *; apply H;
    try (rewrite range_total_times; cbn; lia); constructor.
Qed.

End Controller.

(** ** The code on the sample data *)

Local Abbreviation run_main job fsys :=
  (main float_of_decimal sample_w "0.01" 4 sample_timestamp sample_elapsed
     "30.00" job fsys).

Local Abbreviation ppo_log_in log :=
  ({[ppo_log_path (sample_timestamp ++ "-0") 4 := log]} : filesystem).

Example str_int_32 : str_int 32 = "32" /\ str_int (-7) = "-7".
Proof. split; reflexivity. Qed.

Example split_strip_sample :
  split (ascii_of_nat 9) (strip (" a" ++ TAB ++ "1" ++ TAB ++ TAB ++ "x " ++ NL))
  = ["a"; "1"; ""; "x"].
Proof. reflexivity. Qed.

Example path_join_sample :
  path_join BASE_DIR ["run_verilog_mult_mid"; "m.v"]
  = "/content/ArithmeticTree/run_verilog_mult_mid/m.v"
  /\ path_join BASE_DIR ["run_verilog_mult_mid"; "/tmp/m.v"] = "/tmp/m.v".
Proof. split; reflexivity. Qed.

Example float_of_decimal_sample :
  float_of_decimal "0.01" = Some sample_w
  /\ float_of_decimal " -2.5 " = Some (-2.5)%float
  /\ float_of_decimal huge = Some infinity
  /\ float_of_decimal "m1.v" = None.
Proof. repeat split; vm_compute; reflexivity. Qed.

(** The scores of the sample log are 7, 5.5 and 5.5: the second record
    wins the tie against the third. *)
Example sample_ppo_winner :
  map (record_score float_of_decimal sample_w) sample_ppo_log
  = [Some 7%float; Some 5.5%float; Some 5.5%float]
  /\ get_best_file_from_ppo float_of_decimal sample_w
       (ppo_log_in sample_ppo_log) (sample_timestamp ++ "-0") 4
     = Ok (Some "m1.v",
           Some (String.concat TAB ["m1.v"; "2.5"; "100"; "1.5"; "50"])).
Proof. split; vm_compute; reflexivity. Qed.

(** C1, witness: the sample log of three well-formed records. *)
Lemma select_best_earliest_minimum_witness :
  Forall (fun line => well_formed float_of_decimal line = true) sample_ppo_log
  /\ selects float_of_decimal sample_w sample_ppo_log
       (get_best_file_from_ppo float_of_decimal sample_w
          (ppo_log_in sample_ppo_log) (sample_timestamp ++ "-0") 4).
Proof.
  assert (Forall (fun line => well_formed float_of_decimal line = true) sample_ppo_log)
    as Hwf by (repeat constructor).
  split; [exact Hwf|].
  apply (select_best_earliest_minimum float_of_decimal sample_w
           (ppo_log_in sample_ppo_log) (sample_timestamp ++ "-0") 4
           sample_ppo_log Hwf).
  reflexivity.
Defined.

(** C1, counterexample: the only record of [overflow_log] is well formed,
    with a first metric of 310 digits that [float] reads as infinity; its
    score is not below the initial best, and the selector returns
    [(None, None)] instead of the record. *)
Lemma select_best_overflow_counterexample :
  Forall (fun line => well_formed float_of_decimal line = true) overflow_log
  /\ map (record_score float_of_decimal sample_w) overflow_log = [Some infinity]
  /\ get_best_file_from_ppo float_of_decimal sample_w
       (ppo_log_in overflow_log) (sample_timestamp ++ "-0") 4
     = Ok (None, None)
  /\ get_best_file_from_mcts float_of_decimal sample_w
       ({[mcts_log_path (sample_timestamp ++ "-0") 8 := overflow_log]} : filesystem)
       (sample_timestamp ++ "-0") 8
     = Ok (None, None).
Proof.
  split; [repeat constructor|].
  repeat split; vm_compute; reflexivity.
Qed.

(** C10, witness: the sample log under the path of either stage. *)
Lemma selectors_agree_witness :
  get_best_file_from_mcts float_of_decimal sample_w
    ({[mcts_log_path (sample_timestamp ++ "-0") 8 := sample_ppo_log]} : filesystem)
    (sample_timestamp ++ "-0") 8
  = get_best_file_from_ppo float_of_decimal sample_w
      (ppo_log_in sample_ppo_log) (sample_timestamp ++ "-0") 4.
Proof.
  apply (selectors_agree float_of_decimal sample_w _ _ _ _ _ _ sample_ppo_log);
    reflexivity.
Defined.

Local Abbreviation adder_source :=
  ({[adder_source_path "a0.v" := sample_adder_verilog]} : filesystem).

Local Abbreviation mult_source :=
  ({[mult_source_path "m1.v" := sample_mult_verilog]} : filesystem).

(** With a bound of 2, the sample design keeps its first two comment
    lines without ['2'], and the lines from the marker on that are no
    comments. *)
Example adder_selection_sample :
  adder_selection 2 sample_adder_verilog
  = ["// first" ++ NL; "// second" ++ NL; "module adder(a,b,s);" ++ NL;
     "assign s = a + b;" ++ NL; "endmodule" ++ NL].
Proof. reflexivity. Qed.

(** C2, witness: the sample adder design, with a bound of 2. *)
Lemma save_adder_file_selection_witness :
  adder_source !! adder_source_path "a0.v" = Some sample_adder_verilog
  /\ save_adder_file adder_source (Some "a0.v") "k" 2
     = Ok (<[adder_dest_path "k" :=
               adder_selection 2
                 (lines_read (adder_source_path "a0.v") (adder_dest_path "k")
                    sample_adder_verilog)]> adder_source,
           adder_template_name "k").
Proof.
  split; [reflexivity|].
  apply (save_adder_file_selection adder_source "a0.v" "k" 2 sample_adder_verilog).
  reflexivity.
Defined.

(** C3, witness: the sample multiplier design. *)
Lemma save_mult_file_prefix_witness :
  mult_source !! mult_source_path "m1.v" = Some sample_mult_verilog
  /\ exists written rest : list string,
      save_mult_file mult_source (Some "m1.v") "k"
      = Ok (<[mult_dest_path "k" := written]> mult_source, mult_template_name "k")
      /\ lines_read (mult_source_path "m1.v") (mult_dest_path "k") sample_mult_verilog
         = (written ++ rest)%list
      /\ Forall (fun line => startswith ADDER_MARKER line = false) written
      /\ (rest = []
          \/ exists (line : string) (rest' : list string),
              rest = line :: rest' /\ startswith ADDER_MARKER line = true).
Proof.
  split; [reflexivity|].
  apply (save_mult_file_prefix mult_source "m1.v" "k" sample_mult_verilog).
  reflexivity.
Defined.

(** C3, counterexample: no line of the sample design is the marker
    itself, since a comment follows the marker on its line; yet the
    template holds the three lines before that line and not the whole
    file. *)
Lemma save_mult_file_exact_counterexample :
  forallb (fun line => negb (is_marker_line line)) sample_mult_verilog = true
  /\ save_mult_file mult_source (Some "m1.v") "k"
     = Ok (<[mult_dest_path "k" := firstn 3 sample_mult_verilog]> mult_source,
           mult_template_name "k")
  /\ firstn 3 sample_mult_verilog <> sample_mult_verilog.
Proof.
  repeat split; try reflexivity. discriminate.
Qed.

(** C8, witness: the second extraction from the sample design. *)
Lemma save_mult_file_idempotent_witness :
  save_mult_file mult_source (Some "m1.v") "k"
  = Ok (<[mult_dest_path "k" := firstn 3 sample_mult_verilog]> mult_source,
        mult_template_name "k")
  /\ mult_template_name "k" = mult_template_name "k"
  /\ save_mult_file
       (<[mult_dest_path "k" := firstn 3 sample_mult_verilog]> mult_source)
       (Some "m1.v") "k"
     = Ok (<[mult_dest_path "k" := firstn 3 sample_mult_verilog]> mult_source,
           mult_template_name "k").
Proof.
  split; [reflexivity|].
  apply (save_mult_file_idempotent mult_source _ (Some "m1.v") "k").
  reflexivity.
Defined.

(** A source that is the destination itself is emptied by the first
    extraction, and stays empty. *)
Example save_mult_file_onto_itself :
  save_mult_file ({[mult_dest_path "k" := sample_mult_verilog]} : filesystem)
    (Some (mult_dest_path "k")) "k"
  = Ok ({[mult_dest_path "k" := []]}, mult_template_name "k").
Proof. vm_compute. reflexivity. Qed.

Local Abbreviation round0_cmd :=
  ["python3"; "/content/ArithmeticTree/PPO2_mult.py"; "--input_bit"; "4";
   "--max_iter"; "900"; "--strftime"; sample_timestamp ++ "-0"].

Local Abbreviation iteration0 := ("Iteration 0, Time elapsed: 0.00 seconds" ++ NL).

(** C4, counterexample: the stage-1 job leaves a log without a line.  The
    selector raises nothing and returns [(None, None)]; [main] writes
    [None] as the winner and [save_mult_file] then raises [TypeError],
    which nothing catches: the run ends without the line of the total
    time. *)
Lemma empty_log_counterexample :
  get_best_file_from_ppo float_of_decimal sample_w (ppo_log_in [])
    (sample_timestamp ++ "-0") 4
  = Ok (None, None)
  /\ run_main (logging_job []) ∅
     = (State (ppo_log_in []) [iteration0; ppo_line "None"] [round0_cmd] 0 None,
        Crashed TypeError).
Proof. split; vm_compute; reflexivity. Qed.

(** C4, witness: round 0 of the sample run completes, and the stage-1
    job of round 1 exits with status 0 without a log. *)
Lemma missing_or_empty_log_witness :
  let after0 :=
    default (State ∅ [] [] 0 None)
      (completes float_of_decimal sample_w "0.01" 4 sample_timestamp sample_elapsed
         round0_only_job [0] (State ∅ [] [] 0 None)) in
  let round1_cmd :=
    ["python3"; "/content/ArithmeticTree/PPO2_mult.py"; "--input_bit"; "4";
     "--max_iter"; "900"; "--strftime"; sample_timestamp ++ "-1";
     "--template"; "adder_template_2024-01-01-00-00-00-0.v"] in
  range total_times = ([0] ++ 1 :: [2])%list
  /\ completes float_of_decimal sample_w "0.01" 4 sample_timestamp sample_elapsed
       round0_only_job [0] (State ∅ [] [] 0 None)
     = Some after0
  /\ ppo_cmd 4 sample_timestamp 1 (template_adder_name after0) = Ok round1_cmd
  /\ round0_only_job round1_cmd (fs after0) = (true, "", fs after0)
  /\ fs after0 !! ppo_log_path (round_key sample_timestamp 1) 4 = None
  /\ run_main round0_only_job ∅
     = (State (fs after0)
          (flog after0
           ++ [iteration_line sample_elapsed 1;
               missing_log (ppo_log_path (round_key sample_timestamp 1) 4) ++ NL;
               total_line "30.00"])
          (cmds after0 ++ [round1_cmd]) 1 (template_adder_name after0),
        Finished).
Proof.
  intros after0 round1_cmd.
  assert (completes float_of_decimal sample_w "0.01" 4 sample_timestamp sample_elapsed
            round0_only_job [0] (State ∅ [] [] 0 None)
          = Some after0) as Hdone by (vm_compute; reflexivity).
  assert (ppo_cmd 4 sample_timestamp 1 (template_adder_name after0) = Ok round1_cmd)
    as Hcmd by (vm_compute; reflexivity).
  assert (round0_only_job round1_cmd (fs after0) = (true, "", fs after0)) as Hjob
    by reflexivity.
  assert (fs after0 !! ppo_log_path (round_key sample_timestamp 1) 4 = None) as Hlog
    by (vm_compute; reflexivity).
  split; [reflexivity|]. split; [exact Hdone|]. split; [exact Hcmd|].
  split; [exact Hjob|]. split; [exact Hlog|].
  exact (proj1 (proj2 (missing_or_empty_log float_of_decimal sample_w "0.01" 4
                         sample_timestamp sample_elapsed "30.00" round0_only_job
                         ∅ [0] [2] 1 after0 eq_refl Hdone)
                  round1_cmd "" (fs after0) Hcmd Hjob) Hlog).
Defined.

(** The stage-1 job leaves no log at all: the assertion is reported. *)
Example missing_log_sample :
  run_main (fun _ fsys => (true, "", fsys)) ∅
  = (State ∅
       [iteration0;
        "[ERROR] /content/ArithmeticTree/mult_logs/mult_4b_2024-01-01-00-00-00-0.log does not exist."
        ++ NL;
        "Total Time Elapsed: 30.00 seconds" ++ NL]
       [round0_cmd] 0 None,
     Finished).
Proof. vm_compute. reflexivity. Qed.

(** C5, counterexample: the second record of [short_log] has three
    fields.  The selector raises [IndexError] and [main] ends with it
    uncaught; the run log holds the line of iteration 0 alone. *)
Lemma malformed_record_counterexample :
  map (well_formed float_of_decimal) short_log = [true; false]
  /\ get_best_file_from_ppo float_of_decimal sample_w (ppo_log_in short_log)
       (sample_timestamp ++ "-0") 4
     = Raise IndexError
  /\ run_main (logging_job short_log) ∅
     = (State (ppo_log_in short_log) [iteration0] [round0_cmd] 0 None,
        Crashed IndexError).
Proof. repeat split; vm_compute; reflexivity. Qed.

(** C5, witness: the same log, through the theorem. *)
Lemma malformed_record_round0_witness :
  ppo_cmd 4 sample_timestamp 0 None = Ok round0_cmd
  /\ logging_job short_log round0_cmd ∅
     = (true, "ppo finished" ++ NL, ppo_log_in short_log)
  /\ ppo_log_in short_log !! ppo_log_path (round_key sample_timestamp 0) 4
     = Some short_log
  /\ Exists (fun line => well_formed float_of_decimal line = false) short_log
  /\ exists e : exn,
      (e = IndexError \/ e = ValueError)
      /\ get_best_file_from_ppo float_of_decimal sample_w (ppo_log_in short_log)
           (round_key sample_timestamp 0) 4
         = Raise e
      /\ run_main (logging_job short_log) ∅
         = (State (ppo_log_in short_log) [iteration0] [round0_cmd] 0 None, Crashed e).
Proof.
  assert (Exists (fun line => well_formed float_of_decimal line = false) short_log)
    as Hbad by (apply Exists_cons_tl, Exists_cons_hd; reflexivity).
  repeat (split; [first [reflexivity | exact Hbad]|]).
  apply (malformed_record_round0 float_of_decimal sample_w "0.01" 4 sample_timestamp
           sample_elapsed "30.00" (logging_job short_log) ∅ (ppo_log_in short_log)
           round0_cmd short_log ("ppo finished" ++ NL));
    first [reflexivity | exact Hbad].
Defined.

(** C6, witness: a stage-1 job that exits with status 1 in round 0. *)
Lemma stage1_failure_round0_witness :
  ppo_cmd 4 sample_timestamp 0 None = Ok round0_cmd
  /\ failing_job round0_cmd ∅
     = (false, "Traceback (most recent call last):" ++ NL, ∅)
  /\ run_main failing_job ∅
     = (State ∅
          [iteration0;
           "[ERROR] PPO2_mult.py failed during iteration 0." ++ NL ++ "Output:" ++ NL
           ++ "Traceback (most recent call last):" ++ NL ++ NL;
           "Total Time Elapsed: 30.00 seconds" ++ NL]
          [round0_cmd] 0 None,
        Finished).
Proof.
  repeat (split; [reflexivity|]).
  apply (stage1_failure_round0 float_of_decimal sample_w "0.01" 4 sample_timestamp
           sample_elapsed "30.00" failing_job ∅ ∅ round0_cmd
           ("Traceback (most recent call last):" ++ NL));
    reflexivity.
Defined.

Local Abbreviation sample_start := (State ∅ [] [] 0 None).

Local Abbreviation sample_completes :=
  (completes float_of_decimal sample_w "0.01" 4 sample_timestamp sample_elapsed
     sample_job (range total_times) sample_start).

Local Abbreviation sample_end := (default sample_start sample_completes).

(** C7, counterexample: a run in which every job succeeds.  The six
    commands carry the keys 0, 0, 1, 1, 2, 2: round 1 runs under the key
    that a second increment of the counter would have skipped. *)
Lemma consecutive_keys_counterexample :
  (run_main sample_job ∅).2 = Finished
  /\ map (arg "--strftime") (cmds (run_main sample_job ∅).1)
     = [sample_timestamp ++ "-0"; sample_timestamp ++ "-0";
        sample_timestamp ++ "-1"; sample_timestamp ++ "-1";
        sample_timestamp ++ "-2"; sample_timestamp ++ "-2"]
  /\ In (sample_timestamp ++ "-1")
       (map (arg "--strftime") (cmds (run_main sample_job ∅).1)).
Proof.
  split; [vm_compute; reflexivity|].
  assert (map (arg "--strftime") (cmds (run_main sample_job ∅).1)
          = [sample_timestamp ++ "-0"; sample_timestamp ++ "-0";
             sample_timestamp ++ "-1"; sample_timestamp ++ "-1";
             sample_timestamp ++ "-2"; sample_timestamp ++ "-2"]) as ->
    by (vm_compute; reflexivity).
  split; [reflexivity|]. right. right. left. reflexivity.
Qed.

(** C7, witness: the same run, through the theorem. *)
Lemma rounds_use_consecutive_keys_witness :
  sample_completes = Some sample_end
  /\ exists c0 c1 c2 : list string,
      ppo_cmd 4 sample_timestamp 0 None = Ok c0
      /\ ppo_cmd 4 sample_timestamp 1
           (Some (adder_template_name (round_key sample_timestamp 0))) = Ok c1
      /\ ppo_cmd 4 sample_timestamp 2
           (Some (adder_template_name (round_key sample_timestamp 1))) = Ok c2
      /\ nth_error c0 7 = Some (round_key sample_timestamp 0)
      /\ nth_error c1 7 = Some (round_key sample_timestamp 1)
      /\ nth_error c2 7 = Some (round_key sample_timestamp 2)
      /\ cmds sample_end
         = [c0; mcts_cmd "0.01" 4 sample_timestamp 0
                  (mult_template_name (round_key sample_timestamp 0));
            c1; mcts_cmd "0.01" 4 sample_timestamp 1
                  (mult_template_name (round_key sample_timestamp 1));
            c2; mcts_cmd "0.01" 4 sample_timestamp 2
                  (mult_template_name (round_key sample_timestamp 2))]
      /\ i sample_end = 3
      /\ run_main sample_job ∅
         = (write sample_end (total_line "30.00"), Finished).
Proof.
  assert (sample_completes = Some sample_end) as Hrun by (vm_compute; reflexivity).
  split; [exact Hrun|].
  exact (rounds_use_consecutive_keys float_of_decimal sample_w "0.01" 4
           sample_timestamp sample_elapsed "30.00" sample_job ∅ sample_end Hrun).
Defined.

Local Abbreviation sample_body st :=
  (body float_of_decimal sample_w "0.01" 4 sample_timestamp sample_elapsed
     sample_job st).

Local Abbreviation ppo_raw := (String.concat TAB ["m1.v"; "2.5"; "100"; "1.5"; "50"]).
Local Abbreviation mcts_raw := (String.concat TAB ["a0.v"; "1.25"; "200"; "1"; "0"]).

(** The file system after the stage-1 job of round 0, after the
    multiplier template is written, and after the stage-2 job. *)
Local Abbreviation after_ppo := (sample_job round0_cmd ∅).2.
Local Abbreviation after_template :=
  (<[mult_dest_path (sample_timestamp ++ "-0") := firstn 3 sample_mult_verilog]>
     after_ppo : filesystem).
Local Abbreviation round0_mcts_cmd :=
  (mcts_cmd "0.01" 4 sample_timestamp 0 (mult_template_name (sample_timestamp ++ "-0"))).
Local Abbreviation after_mcts := (sample_job round0_mcts_cmd after_template).2.

(** C9, counterexample: the entry that records the stage-1 winner of the
    sample run starts with [PPO:], not with [PPO] and a tab. *)
Lemma ppo_line_counterexample :
  get_best_file_from_ppo float_of_decimal sample_w after_ppo
    (sample_timestamp ++ "-0") 4
  = Ok (Some "m1.v", Some ppo_raw)
  /\ nth_error (flog (state_of (sample_body sample_start))) 1 = Some (ppo_line ppo_raw)
  /\ ppo_line ppo_raw <> "PPO" ++ TAB ++ ppo_raw ++ NL
  /\ startswith ("PPO" ++ TAB) (ppo_line ppo_raw) = false.
Proof.
  split; [vm_compute; reflexivity|].
  split; [vm_compute; reflexivity|].
  split; [|vm_compute; reflexivity].
  vm_compute. discriminate.
Qed.

(** C9, witness: round 0 of the sample run. *)
Lemma winner_log_lines_witness :
  ppo_cmd 4 sample_timestamp 0 None = Ok round0_cmd
  /\ sample_job round0_cmd ∅ = (true, "ppo finished" ++ NL, after_ppo)
  /\ get_best_file_from_ppo float_of_decimal sample_w after_ppo
       (sample_timestamp ++ "-0") 4
     = Ok (Some "m1.v", Some ppo_raw)
  /\ save_mult_file after_ppo (Some "m1.v") (sample_timestamp ++ "-0")
     = Ok (after_template, mult_template_name (sample_timestamp ++ "-0"))
  /\ sample_job round0_mcts_cmd after_template
     = (true, "mcts finished" ++ NL, after_mcts)
  /\ get_best_file_from_mcts float_of_decimal sample_w after_mcts
       (sample_timestamp ++ "-0") 8
     = Ok (Some "a0.v", Some mcts_raw)
  /\ flog (state_of (sample_body sample_start))
     = [iteration_line sample_elapsed 0; ppo_line ppo_raw; mcts_line mcts_raw].
Proof.
  assert (ppo_cmd 4 sample_timestamp 0 None = Ok round0_cmd) as H1
    by (vm_compute; reflexivity).
  assert (sample_job round0_cmd ∅ = (true, "ppo finished" ++ NL, after_ppo)) as H2
    by reflexivity.
  assert (get_best_file_from_ppo float_of_decimal sample_w after_ppo
            (sample_timestamp ++ "-0") 4
          = Ok (Some "m1.v", Some ppo_raw)) as H3 by (vm_compute; reflexivity).
  assert (save_mult_file after_ppo (Some "m1.v") (sample_timestamp ++ "-0")
          = Ok (after_template, mult_template_name (sample_timestamp ++ "-0"))) as H4
    by reflexivity.
  assert (sample_job round0_mcts_cmd after_template
          = (true, "mcts finished" ++ NL, after_mcts)) as H5
    by reflexivity.
  assert (get_best_file_from_mcts float_of_decimal sample_w after_mcts
            (sample_timestamp ++ "-0") 8
          = Ok (Some "a0.v", Some mcts_raw)) as H6 by (vm_compute; reflexivity).
  repeat (split; [assumption|]).
  exact (proj2 (winner_log_lines float_of_decimal sample_w "0.01" 4 sample_timestamp
                  sample_elapsed sample_job sample_start round0_cmd
                  ("ppo finished" ++ NL) after_ppo (Some "m1.v") ppo_raw H1 H2 H3)
           after_template after_mcts (mult_template_name (sample_timestamp ++ "-0"))
           ("mcts finished" ++ NL) (Some "a0.v") mcts_raw H4 H5 H6).
Defined.

(** ** The further properties on the sample data *)


(** X2, witness: stage 2 of round 0 exits with status 1. *)
Lemma stage2_failure_round0_witness :
  ppo_cmd 4 sample_timestamp 0 None = Ok round0_cmd
  /\ stage2_failing_job round0_cmd ∅ = (true, "ppo finished" ++ NL, after_ppo)
  /\ get_best_file_from_ppo float_of_decimal sample_w after_ppo
       (round_key sample_timestamp 0) 4
     = Ok (Some "m1.v", Some ppo_raw)
  /\ save_mult_file after_ppo (Some "m1.v") (round_key sample_timestamp 0)
     = Ok (after_template, mult_template_name (sample_timestamp ++ "-0"))
  /\ stage2_failing_job round0_mcts_cmd after_template
     = (false, "Traceback (most recent call last):" ++ NL, after_template)
  /\ run_main stage2_failing_job ∅
     = (State after_template
          [iteration_line sample_elapsed 0; ppo_line ppo_raw;
           mcts_error_line 0 ("Traceback (most recent call last):" ++ NL);
           total_line "30.00"]
          [round0_cmd; round0_mcts_cmd] 0 None,
        Finished).
Proof.
  assert (get_best_file_from_ppo float_of_decimal sample_w after_ppo
            (round_key sample_timestamp 0) 4
          = Ok (Some "m1.v", Some ppo_raw)) as Hsel by (vm_compute; reflexivity).
  assert (save_mult_file after_ppo (Some "m1.v") (round_key sample_timestamp 0)
          = Ok (after_template, mult_template_name (sample_timestamp ++ "-0"))) as Hsave
    by reflexivity.
  split; [reflexivity|]. split; [reflexivity|]. split; [exact Hsel|].
  split; [exact Hsave|]. split; [reflexivity|].
  apply (stage2_failure_round0 float_of_decimal sample_w "0.01" 4 sample_timestamp
           sample_elapsed "30.00" stage2_failing_job ∅ after_ppo after_template
           after_template round0_cmd ("ppo finished" ++ NL)
           ("Traceback (most recent call last):" ++ NL) ppo_raw
           (mult_template_name (sample_timestamp ++ "-0")) (Some "m1.v"));
    first [exact Hsel | exact Hsave | reflexivity].
Defined.

(** X3, witness: stage 2 of round 0 exits with status 0 and leaves no
    log. *)
Lemma stage2_missing_log_round0_witness :
  ppo_cmd 4 sample_timestamp 0 None = Ok round0_cmd
  /\ stage2_silent_job round0_cmd ∅ = (true, "ppo finished" ++ NL, after_ppo)
  /\ get_best_file_from_ppo float_of_decimal sample_w after_ppo
       (round_key sample_timestamp 0) 4
     = Ok (Some "m1.v", Some ppo_raw)
  /\ save_mult_file after_ppo (Some "m1.v") (round_key sample_timestamp 0)
     = Ok (after_template, mult_template_name (sample_timestamp ++ "-0"))
  /\ stage2_silent_job round0_mcts_cmd after_template
     = (true, "mcts finished" ++ NL, after_template)
  /\ after_template !! mcts_log_path (round_key sample_timestamp 0) (4 * 2) = None
  /\ run_main stage2_silent_job ∅
     = (State after_template
          [iteration_line sample_elapsed 0; ppo_line ppo_raw;
           missing_log (mcts_log_path (round_key sample_timestamp 0) (4 * 2)) ++ NL;
           total_line "30.00"]
          [round0_cmd; round0_mcts_cmd] 0 None,
        Finished).
Proof.
  assert (get_best_file_from_ppo float_of_decimal sample_w after_ppo
            (round_key sample_timestamp 0) 4
          = Ok (Some "m1.v", Some ppo_raw)) as Hsel by (vm_compute; reflexivity).
  assert (save_mult_file after_ppo (Some "m1.v") (round_key sample_timestamp 0)
          = Ok (after_template, mult_template_name (sample_timestamp ++ "-0"))) as Hsave
    by reflexivity.
  split; [reflexivity|]. split; [reflexivity|]. split; [exact Hsel|].
  split; [exact Hsave|]. split; [reflexivity|]. split; [reflexivity|].
  apply (stage2_missing_log_round0 float_of_decimal sample_w "0.01" 4 sample_timestamp
           sample_elapsed "30.00" stage2_silent_job ∅ after_ppo after_template
           after_template round0_cmd ("ppo finished" ++ NL) ("mcts finished" ++ NL)
           ppo_raw (mult_template_name (sample_timestamp ++ "-0")) (Some "m1.v"));
    first [exact Hsel | exact Hsave | reflexivity].
Defined.

(** X4, witness: the run that ends with the [IndexError] of
    [short_log]. *)
Lemma main_uncaught_exceptions_witness :
  run_main (logging_job short_log) ∅
  = (State (ppo_log_in short_log) [iteration0] [round0_cmd] 0 None, Crashed IndexError)
  /\ IndexError <> UnboundLocalError
  /\ forall msg : string, IndexError <> AssertionError msg.
Proof.
  assert (run_main (logging_job short_log) ∅
          = (State (ppo_log_in short_log) [iteration0] [round0_cmd] 0 None,
             Crashed IndexError)) as Hrun by (vm_compute; reflexivity).
  split; [exact Hrun|].
  exact (main_uncaught_exceptions float_of_decimal sample_w "0.01" 4 sample_timestamp
           sample_elapsed "30.00" (logging_job short_log) ∅ _ IndexError Hrun).
Defined.

(** X5, witness: round 0 of the sample run. *)
Lemma round_effects_witness :
  sample_body sample_start = Next (state_of (sample_body sample_start))
  /\ exists (raw1 raw2 name2 : string) (fsys3 : filesystem) (lines : list string),
      flog (state_of (sample_body sample_start))
      = ([] ++ [iteration_line sample_elapsed 0; ppo_line raw1; mcts_line raw2])%list
      /\ get_best_file_from_mcts float_of_decimal sample_w fsys3
           (round_key sample_timestamp 0) (4 * 2)
         = Ok (Some name2, Some raw2)
      /\ fsys3 !! adder_source_path name2 = Some lines
      /\ fs (state_of (sample_body sample_start))
         = <[adder_dest_path (round_key sample_timestamp 0) :=
               adder_selection (4 * 2)
                 (lines_read (adder_source_path name2)
                    (adder_dest_path (round_key sample_timestamp 0)) lines)]> fsys3.
Proof.
  assert (sample_body sample_start = Next (state_of (sample_body sample_start)))
    as Hnext by (vm_compute; reflexivity).
  split; [exact Hnext|].
  exact (round_effects float_of_decimal sample_w "0.01" 4 sample_timestamp
           sample_elapsed sample_job sample_start _ Hnext).
Defined.

(** X6, witness: the sample run. *)
Lemma failure_free_run_log_witness :
  sample_completes = Some sample_end
  /\ exists p0 m0 p1 m1 p2 m2 : string,
      run_main sample_job ∅ = (write sample_end (total_line "30.00"), Finished)
      /\ flog (write sample_end (total_line "30.00"))
         = [iteration_line sample_elapsed 0; ppo_line p0; mcts_line m0;
            iteration_line sample_elapsed 1; ppo_line p1; mcts_line m1;
            iteration_line sample_elapsed 2; ppo_line p2; mcts_line m2;
            total_line "30.00"].
Proof.
  assert (sample_completes = Some sample_end) as Hrun by (vm_compute; reflexivity).
  split; [exact Hrun|].
  exact (failure_free_run_log float_of_decimal sample_w "0.01" 4 sample_timestamp
           sample_elapsed "30.00" sample_job ∅ sample_end Hrun).
Defined.

(** X7, witness: the second extraction from the sample adder design. *)
Lemma save_adder_file_idempotent_witness :
  save_adder_file adder_source (Some "a0.v") "k" 2
  = Ok (<[adder_dest_path "k" := adder_selection 2 sample_adder_verilog]> adder_source,
        adder_template_name "k")
  /\ adder_template_name "k" = adder_template_name "k"
  /\ save_adder_file
       (<[adder_dest_path "k" := adder_selection 2 sample_adder_verilog]> adder_source)
       (Some "a0.v") "k" 2
     = Ok (<[adder_dest_path "k" := adder_selection 2 sample_adder_verilog]> adder_source,
           adder_template_name "k").
Proof.
  split; [reflexivity|].
  apply (save_adder_file_idempotent adder_source _ (Some "a0.v") "k" _ 2).
  reflexivity.
Defined.

(** X9, witness: the sample design under its plain name. *)
Lemma extractors_on_plain_name_witness :
  char_in "/" "m1.v" = false
  /\ mult_source !! mult_source_path "m1.v" = Some sample_mult_verilog
  /\ exists fsys' : filesystem,
      save_mult_file mult_source (Some "m1.v") "k" = Ok (fsys', mult_template_name "k")
      /\ fsys' !! mult_dest_path "k" = Some (mult_lines sample_mult_verilog)
      /\ fsys' !! mult_source_path "m1.v" = Some sample_mult_verilog.
Proof.
  split; [reflexivity|]. split; [reflexivity|].
  apply (proj1 (extractors_on_plain_name mult_source "m1.v" "k" 2
                  sample_mult_verilog eq_refl)).
  reflexivity.
Defined.

(** X10, witness: rounds 0 and 1 of a run with 4 bits. *)
Lemma round_artifacts_distinct_witness :
  0 <> 1
  /\ ppo_log_path (round_key sample_timestamp 0) 4
     <> ppo_log_path (round_key sample_timestamp 1) 4
  /\ mcts_log_path (round_key sample_timestamp 0) 4
     <> mcts_log_path (round_key sample_timestamp 1) 4
  /\ mult_dest_path (round_key sample_timestamp 0)
     <> mult_dest_path (round_key sample_timestamp 1)
  /\ adder_dest_path (round_key sample_timestamp 0)
     <> adder_dest_path (round_key sample_timestamp 1).
Proof.
  assert (0 <> 1) as Hne by lia.
  split; [exact Hne|].
  exact (round_artifacts_distinct sample_timestamp 0 1 4 Hne).
Defined.

(** X13, witness: the winner of the sample log. *)
Lemma selected_record_starts_with_id_witness :
  get_best_file_from_ppo float_of_decimal sample_w (ppo_log_in sample_ppo_log)
    (sample_timestamp ++ "-0") 4
  = Ok (Some "m1.v", Some ppo_raw)
  /\ strip ppo_raw = ppo_raw /\ char_in (ascii_of_nat 9) "m1.v" = false
  /\ exists rest : string, ppo_raw = "m1.v" ++ TAB ++ rest.
Proof.
  assert (get_best_file_from_ppo float_of_decimal sample_w (ppo_log_in sample_ppo_log)
            (sample_timestamp ++ "-0") 4
          = Ok (Some "m1.v", Some ppo_raw)) as Hsel by (vm_compute; reflexivity).
  split; [exact Hsel|].
  exact (selected_record_starts_with_id float_of_decimal sample_w
           (ppo_log_in sample_ppo_log) (sample_timestamp ++ "-0") 4 "m1.v" ppo_raw
           (or_introl Hsel)).
Defined.

(** X14, witness: the sample log with an empty line after its records. *)
Lemma blank_line_raises_witness :
  Forall (fun l => well_formed float_of_decimal l = true) sample_ppo_log
  /\ is_blank NL = true
  /\ get_best_file_from_ppo float_of_decimal sample_w
       (ppo_log_in (sample_ppo_log ++ [NL])%list) (sample_timestamp ++ "-0") 4
     = Raise IndexError.
Proof.
  assert (Forall (fun l => well_formed float_of_decimal l = true) sample_ppo_log)
    as Hwf by (repeat constructor).
  split; [exact Hwf|]. split; [reflexivity|].
  apply (proj1 (blank_line_raises float_of_decimal sample_w
                  (ppo_log_in (sample_ppo_log ++ [NL])%list) (sample_timestamp ++ "-0") 4
                  sample_ppo_log [] NL Hwf eq_refl)).
  reflexivity.
Defined.

(** X15, witness: the sample log and the same log without line ends. *)
Lemma selectors_ignore_surrounding_space_witness :
  map strip sample_ppo_log = map strip (map strip sample_ppo_log)
  /\ get_best_file_from_ppo float_of_decimal sample_w (ppo_log_in sample_ppo_log)
       (sample_timestamp ++ "-0") 4
     = get_best_file_from_ppo float_of_decimal sample_w
         (ppo_log_in (map strip sample_ppo_log)) (sample_timestamp ++ "-0") 4.
Proof.
  split; [reflexivity|].
  apply (proj1 (selectors_ignore_surrounding_space float_of_decimal sample_w
                  (ppo_log_in sample_ppo_log) (ppo_log_in (map strip sample_ppo_log))
                  (sample_timestamp ++ "-0") (sample_timestamp ++ "-0") 4 4
                  sample_ppo_log (map strip sample_ppo_log) eq_refl));
    reflexivity.
Defined.

(** X16, witness: the part of the sample design before its adder. *)
Lemma design_without_marker_witness :
  Forall (fun line => startswith ADDER_MARKER line = false)
    (firstn 3 sample_mult_verilog)
  /\ mult_lines (firstn 3 sample_mult_verilog) = firstn 3 sample_mult_verilog
  /\ code_lines (adder_lines 8 (firstn 3 sample_mult_verilog) 0 false) = [].
Proof.
  assert (Forall (fun line => startswith ADDER_MARKER line = false)
            (firstn 3 sample_mult_verilog)) as Hall by (repeat constructor).
  split; [exact Hall|].
  exact (design_without_marker 8 (firstn 3 sample_mult_verilog) Hall).
Defined.
